(** * airalo-api: the request / authentication / retry pipeline

    A shallow embedding of [src/services/airalo.service.ts] and
    [src/interfaces/error.interface.ts].

    Conventions of the embedding:
    - a JavaScript [number] that the code only compares, counts with or
      hands on (error codes, HTTP statuses, retry counters, delays, page
      numbers) is a [Z]; a [number] that the code prints (an order id, a
      quantity, a package id) is a [SafeInteger.t], an integer of magnitude
      at most [Number.MAX_SAFE_INTEGER], which JavaScript prints in decimal:
      fractions and larger numbers are outside the embedding;
    - what the server sends is not checked at run time: the [code] of a
      failure body is any JSON value, and the body of a fulfilled login may
      lack [data] or [access_token]; the texts of a failure body ([message],
      [additional_info]) are strings when they are present;
    - an optional field ([x?: T], or a property that may be [undefined]) is an
      [option];
    - a JavaScript object used as a dictionary (request headers, the message
      table) is a [gmap]; an object literal whose entries may be [undefined]
      (the [params] of a GET) keeps its entries in source order as an
      association list;
    - [async] methods run in a state-and-exception monad over the service
      instance and the trace of what reached the transport. *)

From stdpp Require Import gmap strings list fin_maps pretty.

Local Open Scope string_scope.
Local Open Scope Z_scope.

(** ** JavaScript values and truthiness *)

(** Scalar values: members of the compiled enum object, query parameters. *)
Inductive JsVal :=
  | JNum (n : Z)
  | JStr (s : string).

#[global] Instance JsVal_eq_dec : EqDecision JsVal.
Proof. solve_decision. Defined.

(** Payloads the API answers with (the [T] of [PaginatedResponse<T>],
    [AiraloOrder], ...) and [Record<string, any>] request payloads. *)
#[local] Unset Elimination Schemes.
Inductive Json :=
  | JNull
  | JBool (b : bool)
  | JNumber (n : Z)
  | JString (s : string)
  | JArray (items : list Json)
  | JObject (fields : list (string * Json)).
#[local] Set Elimination Schemes.

(** A JSON value as [===] and [includes] see it: a number or a string is the
    scalar it holds, anything else equals no scalar. *)
Definition scalar (v : Json) : option JsVal :=
  match v with
  | JNumber n => Some (JNum n)
  | JString s => Some (JStr s)
  | _ => None
  end.

(** [!!v] for a JSON value that may be absent: [undefined], [null], [false],
    [0] and [''] are falsy. *)
Definition truthy_json (v : option Json) : bool :=
  match v with
  | None | Some JNull => false
  | Some (JBool b) => b
  | Some (JNumber n) => negb (bool_decide (n = 0))
  | Some (JString s) => negb (bool_decide (s = ""))
  | Some (JArray _) | Some (JObject _) => true
  end.

(** A [number] where the code prints it. *)
Module SafeInteger.
(** [Number.MAX_SAFE_INTEGER] *)
Definition MAX_SAFE_INTEGER : Z := 9007199254740991.

(** [Number.isSafeInteger] on an integer. *)
Definition isSafeInteger (n : Z) : bool :=
  bool_decide (- MAX_SAFE_INTEGER ≤ n ≤ MAX_SAFE_INTEGER).

Record t := mk {
  value : Z;
  safe : isSafeInteger value = true;
}.

(** [n.toString()] and [`${n}`]: a safe integer prints in decimal, with
    a minus sign when negative. *)
Definition toString (n : t) : string := pretty (value n).
End SafeInteger.

(** [!!s] for an optional string: [undefined] and [''] are falsy. *)
Definition truthy_str (s : option string) : bool :=
  match s with
  | Some s => negb (bool_decide (s = ""))
  | None => false
  end.

(** [a || b] on optional strings. *)
Definition or_str (a b : option string) : option string :=
  if truthy_str a then a else b.

(** [a || d] on an optional integer with a defined right operand. *)
Definition or_num (a : option Z) (d : Z) : Z :=
  match a with
  | Some n => if bool_decide (n = 0) then d else n
  | None => d
  end.

(** [`${s}`] for a value that may be [undefined]. *)
Definition template (s : option string) : string :=
  match s with
  | Some s => s
  | None => "undefined"
  end.

(** ** error.interface.ts *)

Module AiraloErrorCode.
Definition INSUFFICIENT_CREDIT : Z := 11.
Definition OPERATOR_MAINTENANCE : Z := 13.
Definition INVALID_CHECKSUM : Z := 14.
Definition TOPUP_DISABLED : Z := 23.
Definition INSUFFICIENT_STOCK : Z := 33.
Definition PACKAGE_INVALID : Z := 34.
Definition BAD_REQUEST : Z := 43.
Definition UNEXPECTED_ERROR : Z := 53.

(** [Object.values(AiraloErrorCode)]: a numeric enum compiles to an object
    with a reverse mapping, so its values are the member names (stored
    under the integer keys, which enumerate first) followed by the
    numbers. *)
Definition values : list JsVal :=
  [ JStr "INSUFFICIENT_CREDIT"; JStr "OPERATOR_MAINTENANCE";
    JStr "INVALID_CHECKSUM"; JStr "TOPUP_DISABLED";
    JStr "INSUFFICIENT_STOCK"; JStr "PACKAGE_INVALID";
    JStr "BAD_REQUEST"; JStr "UNEXPECTED_ERROR";
    JNum INSUFFICIENT_CREDIT; JNum OPERATOR_MAINTENANCE;
    JNum INVALID_CHECKSUM; JNum TOPUP_DISABLED;
    JNum INSUFFICIENT_STOCK; JNum PACKAGE_INVALID;
    JNum BAD_REQUEST; JNum UNEXPECTED_ERROR ].
End AiraloErrorCode.

(** [Array.prototype.includes]. *)
Definition includes (l : list JsVal) (v : JsVal) : bool :=
  bool_decide (v ∈ l).

Definition AiraloErrorMessages : gmap Z string :=
  list_to_map
    [ (AiraloErrorCode.INSUFFICIENT_CREDIT, "Insufficient Airalo Credit");
      (AiraloErrorCode.OPERATOR_MAINTENANCE,
       "The requested operator is currently undergoing maintenance. Please try again later.");
      (AiraloErrorCode.INVALID_CHECKSUM, "Invalid checksum");
      (AiraloErrorCode.TOPUP_DISABLED,
       "The requested top-up has been disabled by the operator");
      (AiraloErrorCode.INSUFFICIENT_STOCK,
       "Insufficient stock of eSIMs remaining");
      (AiraloErrorCode.PACKAGE_INVALID,
       "The requested eSIM package is invalid or it is currently out of stock. Please try again later.");
      (AiraloErrorCode.BAD_REQUEST, "Bad request");
      (AiraloErrorCode.UNEXPECTED_ERROR,
       "Something unexpected happened. We're working to resolve the issue. Please try again later.") ].

(** [AiraloErrorMessages[key]]: the keys of the table are the numbers of the
    enum, which as property names are their decimal spellings; a number
    selects its own entry and a string the entry it spells. *)
Definition AiraloErrorMessages_at (key : JsVal) : option string :=
  match key with
  | JNum n => AiraloErrorMessages !! n
  | JStr s =>
      (list_to_map ((λ entry, (pretty entry.1, entry.2))
                      <$> map_to_list AiraloErrorMessages) : gmap string string)
        !! s
  end.

Module AiraloErrorResponse.
Record t := mk {
  message : string;
  errors : option (gmap string (list string));
  code : option JsVal;
  status_code : Z;
  additional_info : option string;
}.
End AiraloErrorResponse.

Module AiraloError.
(** The own properties of an instance: the three constructor parameter
    properties, and [message] and [name] from [Error]. There is no
    [response] property. [code] is declared an [AiraloErrorCode]; at run
    time it is whatever the caller passes, a number or, from
    [handleAxiosError], possibly a string. *)
Record t := mk {
  code : JsVal;
  additionalInfo : option string;
  statusCode : Z;
  message : string;
  name : string;
}.

(** [new AiraloError(code, additionalInfo?, statusCode = 422)]; the third
    argument is [None] when the caller leaves it out. *)
Definition new (code : JsVal) (additionalInfo : option string)
    (statusCode : option Z) : t :=
  let statusCode := default 422 statusCode in
  let baseMessage := AiraloErrorMessages_at code in
  let fullMessage :=
    if truthy_str additionalInfo
    then Some (template baseMessage +:+ ": " +:+ template additionalInfo)
    else baseMessage in
  (* super(fullMessage): an undefined message leaves Error's '' *)
  {| code := code;
     additionalInfo := additionalInfo;
     statusCode := statusCode;
     message := default "" fullMessage;
     name := "AiraloError" |}.

Definition toResponse (this : t) : AiraloErrorResponse.t :=
  {| AiraloErrorResponse.message := message this;
     AiraloErrorResponse.errors := None;
     AiraloErrorResponse.code := Some (code this);
     AiraloErrorResponse.status_code := statusCode this;
     AiraloErrorResponse.additional_info := additionalInfo this |}.
End AiraloError.

(** ** What the transport rejects with *)

(** The structured body of a failed call, [error.response.data]; its [code]
    is whatever JSON value the server put there. *)
Module ErrorBody.
Record t := mk {
  code : option Json;
  message : option string;
  additional_info : option string;
}.
End ErrorBody.

(** [error.response]. *)
Module ErrorResponse.
Record t := mk {
  status : Z;
  data : option ErrorBody.t;
}.
End ErrorResponse.

(** The raw failure of the transport; [response] is absent for a network
    error. *)
Module AxiosError.
Record t := mk {
  message : option string;
  response : option ErrorResponse.t;
}.

(** [error.response?.status] *)
Definition response_status (error : t) : option Z :=
  ErrorResponse.status <$> response error.

(** [error.response?.data] *)
Definition response_data (error : t) : option ErrorBody.t :=
  response error ≫= ErrorResponse.data.
End AxiosError.

(** ** AiraloService.handleAxiosError *)

(** The [throw] inside the first [if]: [Some] when it is reached. The cast
    [as number] does nothing at run time: [errorCode] is the value the body
    holds, and [includes] compares it with the names as well as with the
    numbers of the enum; a value that is no scalar equals none of them. *)
Definition handleAxiosError_known (error : AxiosError.t) : option AiraloError.t :=
  let code := AxiosError.response_data error ≫= ErrorBody.code in
  if bool_decide (AxiosError.response_status error = Some 422) && truthy_json code
  then
    let additionalInfo :=
      or_str (AxiosError.response_data error ≫= ErrorBody.additional_info)
             (AxiosError.response_data error ≫= ErrorBody.message) in
    match code ≫= scalar with
    | Some errorCode =>
        if includes AiraloErrorCode.values errorCode
        then Some (AiraloError.new errorCode additionalInfo None)
        else None
    | None => None
    end
  else None.

(** The method never returns: its result is the error it throws. *)
Definition handleAxiosError (error : AxiosError.t) : AiraloError.t :=
  match handleAxiosError_known error with
  | Some e => e
  | None =>
      AiraloError.new (JNum AiraloErrorCode.UNEXPECTED_ERROR)
        (AxiosError.message error)
        (Some (or_num (AxiosError.response_status error) 500))
  end.

(** ** Parameter objects of the endpoint methods *)

Inductive AiraloOrderStatus := pending | processing | completed | failed | cancelled.

Definition AiraloOrderStatus_str (s : AiraloOrderStatus) : string :=
  match s with
  | pending => "pending"
  | processing => "processing"
  | completed => "completed"
  | failed => "failed"
  | cancelled => "cancelled"
  end.

Module AiraloOrderListParams.
Record t := mk {
  include : option string;
  createdAt : option string;
  orderStatus : option AiraloOrderStatus;
  description : option string;
  limit : option Z;
  page : option Z;
}.
End AiraloOrderListParams.

(** [AiraloOrderCreateParams], and [AiraloOrderAsyncParams] which extends it
    with [callback_url]. The field [type] has the literal type ['sim'] in
    one declaration of the interface and does not exist in the other, which
    the test and the README follow: it is absent or holds a string. *)
Module AiraloOrderCreateParams.
Record t := mk {
  package_id : string;
  quantity : SafeInteger.t;
  type : option string;
  description : option string;
  brand_settings_name : option string;
  webhook_url : option string;
}.
End AiraloOrderCreateParams.

Module AiraloOrderAsyncParams.
Record t := mk {
  base : AiraloOrderCreateParams.t;
  callback_url : string;
}.
End AiraloOrderAsyncParams.

Module AiraloTopupOrderParams.
Record t := mk {
  iccid : string;
  package_id : SafeInteger.t;
  description : option string;
}.
End AiraloTopupOrderParams.

Module Pagination.
Record t := mk {
  limit : option Z;
  page : option Z;
}.
End Pagination.

Module AiraloSIMListParams.
Record t := mk {
  include : option string;
  limit : option Z;
  page : option Z;
}.
End AiraloSIMListParams.

Inductive AiraloPackageType := type_global | type_local | type_regional.

Definition AiraloPackageType_str (s : AiraloPackageType) : string :=
  match s with
  | type_global => "global"
  | type_local => "local"
  | type_regional => "regional"
  end.

Module AiraloPackageListParams.
Record t := mk {
  type : option AiraloPackageType;
  country : option string;
  limit : option Z;
  page : option Z;
}.
End AiraloPackageListParams.

Module AiraloNotificationOptIn.
Record t := mk {
  webhook_url : string;
  events : list string;
}.
End AiraloNotificationOptIn.

Module AiraloWebhookSimulation.
Record t := mk {
  event : string;
  payload : Json;
  webhook_url : string;
}.
End AiraloWebhookSimulation.

Module AiraloVoucherESIM.
Record t := mk {
  code : string;
  package_id : Z;
}.
End AiraloVoucherESIM.

Module AiraloVoucherAirmoney.
Record t := mk {
  code : string;
  amount : Z;
  currency : string;
}.
End AiraloVoucherAirmoney.

(** [AiraloAuthResponse]: [{ data: { access_token, token_type, expires_in } }].
    The body of a login is cast to this type, not checked: [data] and each of
    its fields may be missing. A missing [data] stands for every body on
    which reading [.data.access_token] throws ([data] undefined or null, or
    no object at all). *)
Module AiraloAuthResponse.
Record data_t := mk_data {
  access_token : option string;
  token_type : option string;
  expires_in : option Z;
}.
Record t := mk {
  data : option data_t;
}.
End AiraloAuthResponse.

(** ** Calls on the axios instance *)

Inductive Method := GET | POST | PUT.

(** The second argument of [post] and [put]. *)
Inductive RequestData :=
  | NoData
  | FormData (entries : list (string * string))
  | EmptyObject
  | OptInData (data : AiraloNotificationOptIn.t)
  | WebhookData (data : AiraloWebhookSimulation.t)
  | VoucherESIMData (data : AiraloVoucherESIM.t)
  | VoucherAirmoneyData (data : AiraloVoucherAirmoney.t).

(** One call [axiosInstance.get(url, { headers, params })],
    [axiosInstance.post(url, data, { headers })] or [axiosInstance.put(...)],
    as handed to the instance. *)
Module Request.
Record t := mk {
  method : Method;
  url : string;
  data : RequestData;
  headers : gmap string string;
  params : list (string * option JsVal);
}.

(** The query the transport puts on the wire: the entries of [params] that
    are defined, as a dictionary. *)
Definition query (request : t) : gmap string JsVal :=
  list_to_map (omap (λ kv, pair kv.1 <$> kv.2) (params request)).
End Request.

(** What the caller of the instance awaits: [{ data: T }]. *)
Module AxiosResponse.
Record t (T : Type) := mk {
  data : T;
}.
Arguments mk {T} _.
Arguments data {T} _.
End AxiosResponse.

(** ** The world outside the service *)

(** What the service did that is visible outside it, oldest first. *)
Inductive Event :=
  | Sent (request : Request.t)
  | Slept (ms : Z).

(** How the transport settles one call. *)
Inductive Reply (T : Type) :=
  | Fulfilled (response : AxiosResponse.t T)
  | Rejected (error : AxiosError.t).
Arguments Fulfilled {T} _.
Arguments Rejected {T} _.

(** The remote API: its reply to a call may depend on everything that
    happened before. The login endpoint answers with an
    [AiraloAuthResponse], every other endpoint with its own payload. *)
Record Server := {
  token_endpoint : list Event → Request.t → Reply AiraloAuthResponse.t;
  api : list Event → Request.t → Reply Json;
}.

(** ** The service instance *)

Record AiraloConfig := {
  baseUrl : string;
  clientId : string;
  clientSecret : string;
}.

(** The configuration [axios.create] was called with. *)
Record AxiosInstance := {
  baseURL : string;
  default_headers : gmap string string;
}.

Record AiraloService := {
  axiosInstance : AxiosInstance;
  accessToken : option string;
  maxRetries : Z;
  retryDelay : Z;
  config : AiraloConfig;
}.

(** The constructor; the interceptor it installs is part of
    [axiosInstance_request] below. *)
Definition new_AiraloService (config : AiraloConfig) : AiraloService :=
  {| axiosInstance :=
       {| baseURL := baseUrl config;
          default_headers := {[ "Accept" := "application/json" ]} |};
     accessToken := None;
     maxRetries := 3;
     retryDelay := 1000;
     config := config |}.

(** ** The monad of [async] methods *)

(** What is thrown: the transport's raw failure, the domain error, or the
    [TypeError] of the language for a property read on [undefined]. *)
Inductive Exn :=
  | AxiosErr (error : AxiosError.t)
  | AiraloErr (error : AiraloError.t)
  | TypeErr (message : string).

(** [error.response?.status] in a [catch]: only the raw failure has a
    [response] property. *)
Definition response_status (error : Exn) : option Z :=
  match error with
  | AxiosErr error => AxiosError.response_status error
  | AiraloErr _ | TypeErr _ => None
  end.

(** [error.message] *)
Definition message_of (error : Exn) : option string :=
  match error with
  | AxiosErr error => AxiosError.message error
  | AiraloErr error => Some (AiraloError.message error)
  | TypeErr message => Some message
  end.

Record State := {
  this : AiraloService;
  trace : list Event;
}.

(** A promise settles with a value or an exception, or is still pending when
    the step budget of the model runs out. *)
Inductive Outcome (A : Type) :=
  | Returned (value : A)
  | Thrown (error : Exn)
  | Pending.
Arguments Returned {A} _.
Arguments Thrown {A} _.
Arguments Pending {A}.

Definition M (A : Type) : Type := State → Outcome A * State.

Definition ret {A} (value : A) : M A := λ st, (Returned value, st).

Definition throw {A} (error : Exn) : M A := λ st, (Thrown error, st).

Definition bind {A B} (c : M A) (k : A → M B) : M B :=
  λ st,
    match c st with
    | (Returned value, st') => k value st'
    | (Thrown error, st') => (Thrown error, st')
    | (Pending, st') => (Pending, st')
    end.

(** [try { c } catch (error) { handler }] *)
Definition try_catch {A} (c : M A) (handler : Exn → M A) : M A :=
  λ st,
    match c st with
    | (Thrown error, st') => handler error st'
    | settled => settled
    end.

Notation "x <- c ;; k" := (bind c (λ x, k))
  (at level 20, c at level 99, k at level 200, only parsing).
Notation "c ;; k" := (bind c (λ _, k))
  (at level 100, k at level 200, right associativity, only parsing).

(** Reads [this]. *)
Definition get_this : M AiraloService := λ st, (Returned (this st), st).

(** [this.accessToken = token] *)
Definition set_accessToken (token : option string) : M unit :=
  λ st,
    (Returned (),
     {| this :=
          {| axiosInstance := axiosInstance (this st);
             accessToken := token;
             maxRetries := maxRetries (this st);
             retryDelay := retryDelay (this st);
             config := config (this st) |};
        trace := trace st |}).

Definition log (event : Event) : M unit :=
  λ st, (Returned (), {| this := this st; trace := trace st ++ [event] |}).

(** [await new Promise(resolve => setTimeout(resolve, ms))] *)
Definition sleep (ms : Z) : M unit := log (Slept ms).

(** [axiosInstance.get(url, { headers, params })] *)
Definition get (url : string) (headers : gmap string string)
    (params : list (string * option JsVal)) : Request.t :=
  {| Request.method := GET; Request.url := url; Request.data := NoData;
     Request.headers := headers; Request.params := params |}.

(** [axiosInstance.post(url, data, { headers })] *)
Definition post (url : string) (data : RequestData)
    (headers : gmap string string) : Request.t :=
  {| Request.method := POST; Request.url := url; Request.data := data;
     Request.headers := headers; Request.params := [] |}.

(** [axiosInstance.put(url, data, { headers })] *)
Definition put (url : string) (data : RequestData)
    (headers : gmap string string) : Request.t :=
  {| Request.method := PUT; Request.url := url; Request.data := data;
     Request.headers := headers; Request.params := [] |}.

(** [formData.append(name, value)]: the form holds the value as a string,
    [undefined] as ['undefined']. *)
Definition append (name value : string) (formData : list (string * string)) :
    list (string * string) :=
  formData ++ [(name, value)].

(** [if (value) { formData.append(name, value); }] *)
Definition append_if (name : string) (value : option string)
    (formData : list (string * string)) : list (string * string) :=
  if truthy_str value then append name (template value) formData else formData.

(** ** AiraloService *)

Section Service.

Variable server : Server.

(** The transport proper: the call reaches the remote API, and the promise
    settles with its reply. *)
Definition dispatchRequest {T} (endpoint : list Event → Request.t → Reply T)
    (request : Request.t) : M (AxiosResponse.t T) :=
  λ st,
    let st' := {| this := this st; trace := trace st ++ [Sent request] |} in
    match endpoint (trace st) request with
    | Fulfilled response => (Returned response, st')
    | Rejected error => (Thrown (AxiosErr error), st')
    end.

(** The handler the constructor installs with
    [interceptors.response.use(response => response,
                               error => this.handleAxiosError(error))].
    Its parameter has type [any]; on a value without [response] the body of
    [handleAxiosError] reaches its last line. *)
Definition response_rejected {A} (error : Exn) : M A :=
  match error with
  | AxiosErr error => throw (AiraloErr (handleAxiosError error))
  | AiraloErr _ | TypeErr _ =>
      throw (AiraloErr
               (AiraloError.new (JNum AiraloErrorCode.UNEXPECTED_ERROR)
                  (message_of error) (Some (or_num None 500))))
  end.

(** A call on [this.axiosInstance]: the transport, then the response
    interceptor. *)
Definition axiosInstance_request {T}
    (endpoint : list Event → Request.t → Reply T) (request : Request.t) :
    M (AxiosResponse.t T) :=
  try_catch (dispatchRequest endpoint request) response_rejected.

(** The body of [authenticate], over the [handleRequest] it calls. *)
Definition authenticate_with
    (handleRequest : ∀ T : Type, M (AxiosResponse.t T) → Z → M T) : M unit :=
  self <- get_this ;;
  let formData := [] in
  let formData := append "client_id" (clientId (config self)) formData in
  let formData := append "client_secret" (clientSecret (config self)) formData in
  let formData := append "grant_type" "client_credentials" formData in
  response <- handleRequest AiraloAuthResponse.t
                (axiosInstance_request (token_endpoint server)
                   (post "/v2/token" (FormData formData) ∅)) 0 ;;
  (* this.accessToken = response.data.access_token *)
  match AiraloAuthResponse.data response with
  | Some data => set_accessToken (AiraloAuthResponse.access_token data)
  | None =>
      throw (TypeErr "Cannot read properties of undefined (reading 'access_token')")
  end.

(** [handleRequest(requestFn, retryCount = 0)]. The method calls itself and
    [authenticate], which calls it back; [fuel] bounds the depth of these
    calls. *)
Fixpoint handleRequest (fuel : nat) (T : Type)
    (requestFn : M (AxiosResponse.t T)) (retryCount : Z) {struct fuel} : M T :=
  match fuel with
  | O => λ st, (Pending, st)
  | S fuel =>
      try_catch
        (response <- requestFn ;;
         ret (AxiosResponse.data response))
        (λ error,
           self <- get_this ;;
           if bool_decide (response_status error = Some 401)
              && bool_decide (retryCount < 1)
           then
             set_accessToken None ;;
             authenticate_with (handleRequest fuel) ;;
             handleRequest fuel T requestFn (retryCount + 1)
           else if bool_decide (response_status error = Some 429)
                   && bool_decide (retryCount < maxRetries self)
           then
             sleep (retryDelay self * (retryCount + 1)) ;;
             handleRequest fuel T requestFn (retryCount + 1)
           else throw error)
  end.

Section Methods.

Variable fuel : nat.

Definition authenticate : M unit := authenticate_with (handleRequest fuel).

Definition getHeaders : M (gmap string string) :=
  self <- get_this ;;
  (if negb (truthy_str (accessToken self)) then authenticate else ret ()) ;;
  self <- get_this ;;
  ret {[ "Authorization" := "Bearer " +:+ template (accessToken self) ]}.

Definition getOrders (params : AiraloOrderListParams.t) : M Json :=
  headers <- getHeaders ;;
  handleRequest fuel Json
    (axiosInstance_request (api server)
       (get "/v2/orders" headers
          [ ("include", JStr <$> AiraloOrderListParams.include params);
            ("filter[created_at]",
             JStr <$> AiraloOrderListParams.createdAt params);
            ("filter[order_status]",
             JStr ∘ AiraloOrderStatus_str
               <$> AiraloOrderListParams.orderStatus params);
            ("filter[description]",
             JStr <$> AiraloOrderListParams.description params);
            ("limit", JNum <$> AiraloOrderListParams.limit params);
            ("page", JNum <$> AiraloOrderListParams.page params) ])) 0.

Definition getOrder (orderId : SafeInteger.t) (include : option string) :
    M Json :=
  headers <- getHeaders ;;
  handleRequest fuel Json
    (axiosInstance_request (api server)
       (get ("/v2/orders/" +:+ SafeInteger.toString orderId) headers
          [ ("include", JStr <$> include) ])) 0.

Definition createOrder (orderData : AiraloOrderCreateParams.t) : M Json :=
  headers <- getHeaders ;;
  let formData := [] in
  let formData :=
    append "quantity"
      (SafeInteger.toString (AiraloOrderCreateParams.quantity orderData))
      formData in
  let formData :=
    append "package_id" (AiraloOrderCreateParams.package_id orderData)
      formData in
  let formData :=
    append "type" (template (AiraloOrderCreateParams.type orderData))
      formData in
  let formData :=
    append_if "description" (AiraloOrderCreateParams.description orderData)
      formData in
  let formData :=
    append_if "brand_settings_name"
      (AiraloOrderCreateParams.brand_settings_name orderData) formData in
  let formData :=
    append_if "webhook_url" (AiraloOrderCreateParams.webhook_url orderData)
      formData in
  handleRequest fuel Json
    (axiosInstance_request (api server)
       (post "/v2/orders" (FormData formData)
          (<["Content-Type" := "multipart/form-data"]> headers))) 0.

Definition createAsyncOrder (orderData : AiraloOrderAsyncParams.t) : M Json :=
  headers <- getHeaders ;;
  let base := AiraloOrderAsyncParams.base orderData in
  let formData := [] in
  let formData :=
    append "quantity"
      (SafeInteger.toString (AiraloOrderCreateParams.quantity base))
      formData in
  let formData :=
    append "package_id" (AiraloOrderCreateParams.package_id base) formData in
  let formData :=
    append "type" (template (AiraloOrderCreateParams.type base)) formData in
  let formData :=
    append_if "description" (AiraloOrderCreateParams.description base)
      formData in
  let formData :=
    append_if "brand_settings_name"
      (AiraloOrderCreateParams.brand_settings_name base) formData in
  let formData :=
    append_if "webhook_url" (AiraloOrderCreateParams.webhook_url base)
      formData in
  let formData :=
    append_if "callback_url"
      (Some (AiraloOrderAsyncParams.callback_url orderData)) formData in
  handleRequest fuel Json
    (axiosInstance_request (api server)
       (post "/v2/orders-async" (FormData formData)
          (<["Content-Type" := "multipart/form-data"]> headers))) 0.

Definition createTopupOrder (orderData : AiraloTopupOrderParams.t) : M Json :=
  headers <- getHeaders ;;
  let formData := [] in
  let formData :=
    append "iccid" (AiraloTopupOrderParams.iccid orderData) formData in
  let formData :=
    append "package_id"
      (SafeInteger.toString (AiraloTopupOrderParams.package_id orderData))
      formData in
  let formData :=
    append_if "description" (AiraloTopupOrderParams.description orderData)
      formData in
  handleRequest fuel Json
    (axiosInstance_request (api server)
       (post "/v2/orders/topups" (FormData formData)
          (<["Content-Type" := "multipart/form-data"]> headers))) 0.

Definition getOrderStatuses (params : option Pagination.t) : M Json :=
  headers <- getHeaders ;;
  handleRequest fuel Json
    (axiosInstance_request (api server)
       (get "/v2/orders/statuses" headers
          (from_option
             (λ params, [ ("limit", JNum <$> Pagination.limit params);
                          ("page", JNum <$> Pagination.page params) ])
             [] params))) 0.

Definition getOrderStatus (slug : string) : M Json :=
  headers <- getHeaders ;;
  handleRequest fuel Json
    (axiosInstance_request (api server)
       (get ("/v2/orders/statuses/" +:+ slug) headers [])) 0.

Definition getSIMs (params : AiraloSIMListParams.t) : M Json :=
  headers <- getHeaders ;;
  handleRequest fuel Json
    (axiosInstance_request (api server)
       (get "/v2/sims" headers
          [ ("include", JStr <$> AiraloSIMListParams.include params);
            ("limit", JNum <$> AiraloSIMListParams.limit params);
            ("page", JNum <$> AiraloSIMListParams.page params) ])) 0.

Definition getSIM (iccid : string) : M Json :=
  headers <- getHeaders ;;
  handleRequest fuel Json
    (axiosInstance_request (api server)
       (get ("/v2/sims/" +:+ iccid) headers [])) 0.

Definition getSIMInstructions (iccid : string) : M Json :=
  headers <- getHeaders ;;
  handleRequest fuel Json
    (axiosInstance_request (api server)
       (get ("/v2/sims/" +:+ iccid +:+ "/instructions") headers [])) 0.

Definition getSIMUsage (iccid : string) : M Json :=
  headers <- getHeaders ;;
  handleRequest fuel Json
    (axiosInstance_request (api server)
       (get ("/v2/sims/" +:+ iccid +:+ "/usage") headers [])) 0.

Definition getSIMBrand (iccid : string) : M Json :=
  headers <- getHeaders ;;
  handleRequest fuel Json
    (axiosInstance_request (api server)
       (get ("/v2/sims/" +:+ iccid +:+ "/brand") headers [])) 0.

Definition updateSIMBrand (iccid : string)
    (brand_settings_name : option string) : M Json :=
  headers <- getHeaders ;;
  let formData := [] in
  let formData := append_if "brand_settings_name" brand_settings_name formData in
  handleRequest fuel Json
    (axiosInstance_request (api server)
       (put ("/v2/sims/" +:+ iccid +:+ "/brand") (FormData formData)
          (<["Content-Type" := "multipart/form-data"]> headers))) 0.

Definition getSIMPackages (iccid : string) : M Json :=
  headers <- getHeaders ;;
  handleRequest fuel Json
    (axiosInstance_request (api server)
       (get ("/v2/sims/" +:+ iccid +:+ "/packages") headers [])) 0.

Definition getSIMTopups (iccid : string) : M Json :=
  headers <- getHeaders ;;
  handleRequest fuel Json
    (axiosInstance_request (api server)
       (get ("/v2/sims/" +:+ iccid +:+ "/topups") headers [])) 0.

Definition getPackages (params : AiraloPackageListParams.t) : M Json :=
  headers <- getHeaders ;;
  handleRequest fuel Json
    (axiosInstance_request (api server)
       (get "/v2/packages" headers
          [ ("filter[type]",
             JStr ∘ AiraloPackageType_str
               <$> AiraloPackageListParams.type params);
            ("filter[country]",
             JStr <$> AiraloPackageListParams.country params);
            ("limit", JNum <$> AiraloPackageListParams.limit params);
            ("page", JNum <$> AiraloPackageListParams.page params) ])) 0.

Definition getCompatibleDevices : M Json :=
  headers <- getHeaders ;;
  handleRequest fuel Json
    (axiosInstance_request (api server)
       (get "/v2/compatible-devices" headers [])) 0.

Definition optInNotifications (data : AiraloNotificationOptIn.t) : M unit :=
  headers <- getHeaders ;;
  handleRequest fuel Json
    (axiosInstance_request (api server)
       (post "/v2/notifications/opt-in" (OptInData data) headers)) 0 ;;
  ret ().

Definition optOutNotifications : M unit :=
  headers <- getHeaders ;;
  handleRequest fuel Json
    (axiosInstance_request (api server)
       (post "/v2/notifications/opt-out" EmptyObject headers)) 0 ;;
  ret ().

Definition simulateWebhook (data : AiraloWebhookSimulation.t) : M unit :=
  headers <- getHeaders ;;
  handleRequest fuel Json
    (axiosInstance_request (api server)
       (post "/v2/simulator/webhook" (WebhookData data) headers)) 0 ;;
  ret ().

Definition getBalance : M Json :=
  headers <- getHeaders ;;
  handleRequest fuel Json
    (axiosInstance_request (api server)
       (get "/v2/balance" headers [])) 0.

Definition redeemESIMVoucher (data : AiraloVoucherESIM.t) : M Json :=
  headers <- getHeaders ;;
  handleRequest fuel Json
    (axiosInstance_request (api server)
       (post "/v2/voucher/esim" (VoucherESIMData data) headers)) 0.

Definition redeemAirmoneyVoucher (data : AiraloVoucherAirmoney.t) : M unit :=
  headers <- getHeaders ;;
  handleRequest fuel Json
    (axiosInstance_request (api server)
       (post "/v2/voucher/airmoney" (VoucherAirmoneyData data) headers)) 0 ;;
  ret ().

End Methods.

End Service.

(** ** The public surface as one type *)

(** A call of a public method with its arguments. *)
Inductive Op :=
  | Authenticate
  | GetOrders (params : AiraloOrderListParams.t)
  | GetOrder (orderId : SafeInteger.t) (include : option string)
  | CreateOrder (orderData : AiraloOrderCreateParams.t)
  | CreateAsyncOrder (orderData : AiraloOrderAsyncParams.t)
  | CreateTopupOrder (orderData : AiraloTopupOrderParams.t)
  | GetOrderStatuses (params : option Pagination.t)
  | GetOrderStatus (slug : string)
  | GetSIMs (params : AiraloSIMListParams.t)
  | GetSIM (iccid : string)
  | GetSIMInstructions (iccid : string)
  | GetSIMUsage (iccid : string)
  | GetSIMBrand (iccid : string)
  | UpdateSIMBrand (iccid : string) (brand_settings_name : option string)
  | GetSIMPackages (iccid : string)
  | GetSIMTopups (iccid : string)
  | GetPackages (params : AiraloPackageListParams.t)
  | GetCompatibleDevices
  | OptInNotifications (data : AiraloNotificationOptIn.t)
  | OptOutNotifications
  | SimulateWebhook (data : AiraloWebhookSimulation.t)
  | GetBalance
  | RedeemESIMVoucher (data : AiraloVoucherESIM.t)
  | RedeemAirmoneyVoucher (data : AiraloVoucherAirmoney.t).

(** Every method but [authenticate] is an endpoint method. *)
Definition is_endpoint (op : Op) : bool :=
  match op with
  | Authenticate => false
  | _ => true
  end.

(** What the promise of a public method resolves to: a payload, or nothing
    for the [Promise<void>] methods. *)
Definition payload {A} (wrap : A → option Json) (c : M A) : M (option Json) :=
  value <- c ;; ret (wrap value).

(** The caller invokes a public method. *)
Definition call (server : Server) (fuel : nat) (op : Op) : M (option Json) :=
  match op with
  | Authenticate => payload (λ _, None) (authenticate server fuel)
  | GetOrders params => payload Some (getOrders server fuel params)
  | GetOrder orderId include => payload Some (getOrder server fuel orderId include)
  | CreateOrder orderData => payload Some (createOrder server fuel orderData)
  | CreateAsyncOrder orderData =>
      payload Some (createAsyncOrder server fuel orderData)
  | CreateTopupOrder orderData =>
      payload Some (createTopupOrder server fuel orderData)
  | GetOrderStatuses params => payload Some (getOrderStatuses server fuel params)
  | GetOrderStatus slug => payload Some (getOrderStatus server fuel slug)
  | GetSIMs params => payload Some (getSIMs server fuel params)
  | GetSIM iccid => payload Some (getSIM server fuel iccid)
  | GetSIMInstructions iccid => payload Some (getSIMInstructions server fuel iccid)
  | GetSIMUsage iccid => payload Some (getSIMUsage server fuel iccid)
  | GetSIMBrand iccid => payload Some (getSIMBrand server fuel iccid)
  | UpdateSIMBrand iccid brand_settings_name =>
      payload Some (updateSIMBrand server fuel iccid brand_settings_name)
  | GetSIMPackages iccid => payload Some (getSIMPackages server fuel iccid)
  | GetSIMTopups iccid => payload Some (getSIMTopups server fuel iccid)
  | GetPackages params => payload Some (getPackages server fuel params)
  | GetCompatibleDevices => payload Some (getCompatibleDevices server fuel)
  | OptInNotifications data =>
      payload (λ _, None) (optInNotifications server fuel data)
  | OptOutNotifications => payload (λ _, None) (optOutNotifications server fuel)
  | SimulateWebhook data => payload (λ _, None) (simulateWebhook server fuel data)
  | GetBalance => payload Some (getBalance server fuel)
  | RedeemESIMVoucher data => payload Some (redeemESIMVoucher server fuel data)
  | RedeemAirmoneyVoucher data =>
      payload (λ _, None) (redeemAirmoneyVoucher server fuel data)
  end.

(** A caller invokes public methods one after the other, whatever each one
    settles with. *)
Definition call_all (server : Server) (fuel : nat) (ops : list Op)
    (st : State) : State :=
  foldl (λ st op, (call server fuel op st).2) st ops.

(** ** Vocabulary of the statements *)

(** [this] with another [accessToken] and nothing else changed. *)
Definition with_accessToken (token : option string) (self : AiraloService) :
    AiraloService :=
  {| axiosInstance := axiosInstance self;
     accessToken := token;
     maxRetries := maxRetries self;
     retryDelay := retryDelay self;
     config := config self |}.

(** Two instances agree on every field but [accessToken]. *)
Definition same_readonly (a b : AiraloService) : Prop :=
  axiosInstance a = axiosInstance b ∧
  maxRetries a = maxRetries b ∧
  retryDelay a = retryDelay b ∧
  config a = config b.


(** The state after [events] more events. *)
Definition after (events : list Event) (st : State) : State :=
  {| this := this st; trace := trace st ++ events |}.

(** What a call on the instance, run by [handleRequest], settles with when the
    failure it may reject with has passed the response interceptor. *)
Definition settle {T} (reply : Reply T) : Outcome T :=
  match reply with
  | Fulfilled response => Returned (AxiosResponse.data response)
  | Rejected error => Thrown (AiraloErr (handleAxiosError error))
  end.

(** The two statements every endpoint method starts with and ends in: get
    the headers, then hand a call on the instance to [handleRequest]. *)
Definition through (server : Server) (fuel : nat)
    (request : gmap string string → Request.t) : M Json :=
  headers <- getHeaders server fuel ;;
  handleRequest server fuel Json
    (axiosInstance_request (api server) (request headers)) 0.

(** The login call of [authenticate]. *)
Definition login_request (config : AiraloConfig) : Request.t :=
  post "/v2/token"
    (FormData [ ("client_id", clientId config);
                ("client_secret", clientSecret config);
                ("grant_type", "client_credentials") ]) ∅.

(** The header map [{ Authorization: `Bearer ${token}` }]. *)
Definition bearer (token : string) : gmap string string :=
  {[ "Authorization" := "Bearer " +:+ token ]}.

(** The calls in a trace, oldest first. *)
Definition requests (events : list Event) : list Request.t :=
  omap (λ event, match event with Sent request => Some request | Slept _ => None end)
    events.

(** The calls in a trace other than logins. *)
Definition attempts (events : list Event) : list Request.t :=
  filter (λ request, Request.url request ≠ "/v2/token") (requests events).

(** [token] is the [access_token] of a login the server fulfilled at some
    point of [later], after [earlier]. *)
Definition issued (server : Server) (earlier later : list Event)
    (token : option string) : Prop :=
  ∃ (before : list Event) request response data,
    earlier `prefix_of` before ∧
    (before ++ [Sent request])%list `prefix_of` later ∧
    token_endpoint server before request = Fulfilled response ∧
    AiraloAuthResponse.data (AxiosResponse.data response) = Some data ∧
    token = AiraloAuthResponse.access_token data.


(** What [authenticate] throws on such a login. *)
Definition no_data : Exn :=
  TypeErr "Cannot read properties of undefined (reading 'access_token')".


(** The failure [{ message, response: { status, data } }]. *)
Definition failure (message : option string) (status : Z)
    (data : option ErrorBody.t) : AxiosError.t :=
  {| AxiosError.message := message;
     AxiosError.response :=
       Some {| ErrorResponse.status := status; ErrorResponse.data := data |} |}.

(** The business codes of the 422 path, without the catch-all 53. *)
Definition business_codes : list Z := [11; 13; 14; 23; 33; 34; 43].

(** All members of the enum. *)
Definition known_codes : list Z := business_codes ++ [53].

(** What the query of [getOrders] has to be for the caller's [params]: each
    wire key carries the caller's field, and there is no other key. *)
Definition orders_query_of (params : AiraloOrderListParams.t)
    (query : gmap string JsVal) : Prop :=
  query !! "include" = JStr <$> AiraloOrderListParams.include params ∧
  query !! "filter[created_at]" = JStr <$> AiraloOrderListParams.createdAt params ∧
  query !! "filter[order_status]" =
    JStr ∘ AiraloOrderStatus_str <$> AiraloOrderListParams.orderStatus params ∧
  query !! "filter[description]" =
    JStr <$> AiraloOrderListParams.description params ∧
  query !! "limit" = JNum <$> AiraloOrderListParams.limit params ∧
  query !! "page" = JNum <$> AiraloOrderListParams.page params ∧
  ∀ k v, query !! k = Some v →
         k ∈ [ "include"; "filter[created_at]"; "filter[order_status]";
               "filter[description]"; "limit"; "page" ].

(** ** Scenarios *)

(** [{ limit: 10, page: 1, orderStatus: 'completed' }] *)
Definition completed_orders : AiraloOrderListParams.t :=
  {| AiraloOrderListParams.include := None;
     AiraloOrderListParams.createdAt := None;
     AiraloOrderListParams.orderStatus := Some completed;
     AiraloOrderListParams.description := None;
     AiraloOrderListParams.limit := Some 10;
     AiraloOrderListParams.page := Some 1 |}.


(** What the transport rejects with when the server answers with a failing
    status and no body. *)
Definition status_failure (status : Z) : AxiosError.t :=
  failure (Some ("Request failed with status code " +:+ pretty status)) status None.

(** A fulfilled login. *)
Definition login_ok (access_token : string) : Reply AiraloAuthResponse.t :=
  Fulfilled
    (AxiosResponse.mk
       {| AiraloAuthResponse.data :=
            Some {| AiraloAuthResponse.access_token := Some access_token;
                    AiraloAuthResponse.token_type := Some "Bearer";
                    AiraloAuthResponse.expires_in := Some 3600 |} |}).




(** A server whose login always succeeds with [access_token], and whose
    other endpoints fail with [status] on the first [n] calls and answer
    [body] afterwards. *)
Definition flaky (access_token : string) (status : Z) (n : nat) (body : Json) :
    Server :=
  {| token_endpoint := λ _ _, login_ok access_token;
     api := λ events _,
       if bool_decide (length (attempts events) < n)%nat
       then Rejected (status_failure status)
       else Fulfilled (AxiosResponse.mk body) |}.

Definition test_config : AiraloConfig :=
  {| baseUrl := "https://api.test.com";
     clientId := "test-client-id";
     clientSecret := "test-client-secret" |}.

(** [GET /v2/balance] with the header of an instance that holds [token]. *)
Definition balance (token : string) : Request.t :=
  get "/v2/balance" (bearer token) [].

(** A fresh instance, before anything was sent. *)
Definition fresh : State :=
  {| this := new_AiraloService test_config; trace := [] |}.

(** An instance that holds [token], before anything else was sent. *)
Definition holding (token : string) : State :=
  {| this := with_accessToken (Some token) (new_AiraloService test_config);
     trace := [] |}.

(** ** The claims checked below that the code does not meet as worded *)

(** The additional info as C3 words it: the body's [additional_info] when
    present, else the body's [message]. *)
Definition info_when_present (body : ErrorBody.t) : option string :=
  match ErrorBody.additional_info body with
  | Some info => Some info
  | None => ErrorBody.message body
  end.

(** C3 as it is worded. *)
Definition C3_as_stated : Prop :=
  ∀ message body c,
    ErrorBody.code body = Some (JNumber c) →
    c ∈ business_codes →
    let e := handleAxiosError (failure message 422 (Some body)) in
    AiraloError.code e = JNum c ∧
    AiraloError.additionalInfo e = info_when_present body.

(** The message of a domain error as C10 words it. *)
Definition C10_message_as_stated : Prop :=
  ∀ c base (s : option string) statusCode,
    AiraloErrorMessages !! c = Some base →
    AiraloError.message (AiraloError.new (JNum c) s statusCode) =
      match s with
      | None => base
      | Some s => base +:+ ": " +:+ s
      end.





(** ** Case distinctions of the statements *)

(** The names of the members of [AiraloErrorCode]. *)
Definition member_names : list string :=
  [ "INSUFFICIENT_CREDIT"; "OPERATOR_MAINTENANCE"; "INVALID_CHECKSUM";
    "TOPUP_DISABLED"; "INSUFFICIENT_STOCK"; "PACKAGE_INVALID"; "BAD_REQUEST";
    "UNEXPECTED_ERROR" ].




(** ** Vocabulary of the further properties *)

(** The delays in a trace, oldest first. *)
Definition delays (events : list Event) : list Z :=
  omap (λ event, match event with Slept ms => Some ms | Sent _ => None end)
    events.

(** What [m] attempts of [request] leave in the trace when all but the last
    one are followed by a backoff: the attempt made with counter [retryCount]
    is followed by a delay of [retryDelay * (retryCount + 1)]. *)
Fixpoint backoff_trace (request : Request.t) (retryDelay retryCount : Z)
    (m : nat) : list Event :=
  match m with
  | O => []
  | S O => [Sent request]
  | S m =>
      Sent request :: Slept (retryDelay * (retryCount + 1))
        :: backoff_trace request retryDelay (retryCount + 1) m
  end.

(** The keys of a form, in the order they were appended. *)
Definition form_keys (formData : list (string * string)) : list string :=
  formData.*1.

(** The methods that resolve to nothing: [Promise<void>]. *)
Definition is_void (op : Op) : bool :=
  match op with
  | Authenticate | OptInNotifications _ | OptOutNotifications
  | SimulateWebhook _ | RedeemAirmoneyVoucher _ => true
  | _ => false
  end.

(** What [if (value) { formData.append(name, value); }] adds to a form. *)
Definition optional_entry (name : string) (value : option string) :
    list (string * string) :=
  match value with
  | Some v => if decide (v = "") then [] else [(name, v)]
  | None => []
  end.

(** [{ ...headers, 'Content-Type': 'multipart/form-data' }] over the header
    of an instance that holds [token]. *)
Definition multipart (token : string) : gmap string string :=
  <["Content-Type" := "multipart/form-data"]> (bearer token).

(** What the query of [getPackages] has to be for the caller's [params]. *)
Definition packages_query_of (params : AiraloPackageListParams.t)
    (query : gmap string JsVal) : Prop :=
  query !! "filter[type]" =
    JStr ∘ AiraloPackageType_str <$> AiraloPackageListParams.type params ∧
  query !! "filter[country]" = JStr <$> AiraloPackageListParams.country params ∧
  query !! "limit" = JNum <$> AiraloPackageListParams.limit params ∧
  query !! "page" = JNum <$> AiraloPackageListParams.page params ∧
  ∀ k v, query !! k = Some v →
         k ∈ [ "filter[type]"; "filter[country]"; "limit"; "page" ].

(** ** Sample arguments *)

(** [{ package_id: 'kallur-digital-7days-1gb', quantity: 1, type: 'sim',
       description: 'Test order', webhook_url: '' }] *)
Definition sample_order : AiraloOrderCreateParams.t :=
  {| AiraloOrderCreateParams.package_id := "kallur-digital-7days-1gb";
     AiraloOrderCreateParams.quantity := SafeInteger.mk 1 eq_refl;
     AiraloOrderCreateParams.type := Some "sim";
     AiraloOrderCreateParams.description := Some "Test order";
     AiraloOrderCreateParams.brand_settings_name := None;
     AiraloOrderCreateParams.webhook_url := Some "" |}.

(** [{ package_id: '1', quantity: 1, description: 'Test order' }], an order
    without [type]. *)
Definition untyped_order : AiraloOrderCreateParams.t :=
  {| AiraloOrderCreateParams.package_id := "1";
     AiraloOrderCreateParams.quantity := SafeInteger.mk 1 eq_refl;
     AiraloOrderCreateParams.type := None;
     AiraloOrderCreateParams.description := Some "Test order";
     AiraloOrderCreateParams.brand_settings_name := None;
     AiraloOrderCreateParams.webhook_url := None |}.

Definition sample_async_order : AiraloOrderAsyncParams.t :=
  {| AiraloOrderAsyncParams.base := sample_order;
     AiraloOrderAsyncParams.callback_url := "https://your-callback-url.com" |}.


(** [{ type: 'local', country: 'TR', limit: 10, page: 1 }] *)
Definition sample_packages : AiraloPackageListParams.t :=
  {| AiraloPackageListParams.type := Some type_local;
     AiraloPackageListParams.country := Some "TR";
     AiraloPackageListParams.limit := Some 10;
     AiraloPackageListParams.page := Some 1 |}.

(** A server that answers every call with 200. *)
Definition healthy : Server := flaky "T" 500 0 JNull.

(** * Properties *)

(** ** The error mapping *)

Section ErrorMapping.

Lemma includes_values_num (c : Z) :
  includes AiraloErrorCode.values (JNum c) = bool_decide (c ∈ known_codes).
Proof.
  unfold includes. apply bool_decide_ext.
  unfold AiraloErrorCode.values, known_codes, business_codes. simpl.
  rewrite !elem_of_cons, !elem_of_nil.
  unfold AiraloErrorCode.INSUFFICIENT_CREDIT,
    AiraloErrorCode.OPERATOR_MAINTENANCE, AiraloErrorCode.INVALID_CHECKSUM,
    AiraloErrorCode.TOPUP_DISABLED, AiraloErrorCode.INSUFFICIENT_STOCK,
    AiraloErrorCode.PACKAGE_INVALID, AiraloErrorCode.BAD_REQUEST,
    AiraloErrorCode.UNEXPECTED_ERROR.
  split; intros H; destruct_or?; simplify_eq; tauto.
Qed.

Lemma includes_values_str (s : string) :
  includes AiraloErrorCode.values (JStr s) = bool_decide (s ∈ member_names).
Proof.
  unfold includes. apply bool_decide_ext.
  unfold AiraloErrorCode.values, member_names.
  rewrite !elem_of_cons, !elem_of_nil.
  split; intros H; destruct_or?; simplify_eq; tauto.
Qed.

Lemma known_code_truthy (c : Z) :
  c ∈ known_codes → truthy_json (Some (JNumber c)) = true.
Proof.
  unfold known_codes, business_codes. simpl.
  rewrite !elem_of_cons, elem_of_nil.
  intros H; destruct_or?; subst; try reflexivity; tauto.
Qed.

(** On a 422 whose body carries a member of the enum, the first [throw] is
    reached. *)
Lemma handleAxiosError_422_known message body c :
  ErrorBody.code body = Some (JNumber c) →
  c ∈ known_codes →
  handleAxiosError (failure message 422 (Some body)) =
    AiraloError.new (JNum c)
      (or_str (ErrorBody.additional_info body) (ErrorBody.message body)) None.
Proof.
  intros Hc Hin.
  unfold handleAxiosError, handleAxiosError_known, failure,
    AxiosError.response_status, AxiosError.response_data. simpl.
  rewrite Hc. simpl.
  pose proof (known_code_truthy c Hin) as Htruthy. simpl in Htruthy.
  rewrite Htruthy, includes_values_num.
  rewrite bool_decide_eq_true_2 by done. reflexivity.
Qed.



End ErrorMapping.

(** ** Claims about the error mapping and the domain error *)

Section ErrorMappingClaims.

(** C3, counterexample: a 422 body [{ code: 11, additional_info: '',
    message: 'no credit' }] has its [additional_info] present, and the
    domain error takes ['no credit'] from [message], because the code
    selects with [||]. *)
Lemma C3_counterexample : ¬ C3_as_stated.
Proof.
  intros H.
  destruct (H (Some "Request failed with status code 422")
              {| ErrorBody.code := Some (JNumber 11);
                 ErrorBody.message := Some "no credit";
                 ErrorBody.additional_info := Some "" |}
              11 eq_refl) as [_ Hinfo].
  - unfold business_codes. set_solver.
  - vm_compute in Hinfo. discriminate Hinfo.
Qed.

(** C3, amended: for a failure with status 422 whose body carries a code in
    {11, 13, 14, 23, 33, 34, 43}, the domain error carries exactly that
    code; its additional info is the body's [additional_info] when that is
    present and not the empty string, and the body's [message] when
    [additional_info] is absent or empty. *)
Theorem C3_known_code_mapping message body c :
  ErrorBody.code body = Some (JNumber c) →
  c ∈ business_codes →
  let e := handleAxiosError (failure message 422 (Some body)) in
  AiraloError.code e = JNum c ∧
  (∀ info, ErrorBody.additional_info body = Some info → info ≠ "" →
           AiraloError.additionalInfo e = Some info) ∧
  (ErrorBody.additional_info body = None ∨
   ErrorBody.additional_info body = Some "" →
   AiraloError.additionalInfo e = ErrorBody.message body).
Proof.
  intros Hc Hin e. subst e.
  rewrite (handleAxiosError_422_known message body c Hc)
    by (apply elem_of_app; by left).
  simpl. split; [reflexivity |]. unfold or_str. split.
  - intros info -> Hne. simpl. rewrite bool_decide_eq_false_2 by done.
    reflexivity.
  - intros [-> | ->]; reflexivity.
Qed.

Lemma C3_known_code_mapping_witness :
  let body := {| ErrorBody.code := Some (JNumber 33);
                 ErrorBody.message := Some "Validation failed";
                 ErrorBody.additional_info := Some "only 2 eSIMs left" |} in
  let e := handleAxiosError (failure None 422 (Some body)) in
  AiraloError.code e = JNum 33 ∧
  AiraloError.additionalInfo e = Some "only 2 eSIMs left".
Proof.
  intros body e.
  destruct (C3_known_code_mapping None body 33 eq_refl) as (Hcode & Hinfo & _).
  - unfold business_codes. set_solver.
  - split; [exact Hcode |]. apply Hinfo; [reflexivity | discriminate].
Defined.




(** A network error has no response: code 53, status 500. *)
Lemma handleAxiosError_network_error message :
  handleAxiosError
    {| AxiosError.message := message; AxiosError.response := None |} =
  AiraloError.new (JNum 53) message (Some 500).
Proof. reflexivity. Qed.

(** A 422 that carries the catch-all code itself takes the first [throw]:
    the additional info comes from the body and the status is the
    constructor's default. *)
Lemma handleAxiosError_422_unexpected message body :
  ErrorBody.code body = Some (JNumber 53) →
  handleAxiosError (failure message 422 (Some body)) =
    AiraloError.new (JNum 53)
      (or_str (ErrorBody.additional_info body) (ErrorBody.message body)) None.
Proof.
  intros Hc. apply handleAxiosError_422_known; [done |].
  unfold known_codes, business_codes. set_solver.
Qed.

(** C10, counterexample: [new AiraloError(43, '')] has its additional info
    present, and its message is ['Bad request'], not ['Bad request: ']. *)
Lemma C10_counterexample : ¬ C10_message_as_stated.
Proof.
  intros H. specialize (H 43 "Bad request" (Some "") None eq_refl).
  vm_compute in H. discriminate H.
Qed.

(** C10, amended: for a code [c] of the enum with canonical message [base],
    the message of [new AiraloError(c, s, status)] is [base] when [s] is
    absent or the empty string, and [base] followed by [': '] and [s] when
    [s] is a non-empty string; [code] and [additionalInfo] are stored as
    given; [statusCode] is the given status, or 422 when none is given, so
    the domain error of the 422 path carries 422; and [toResponse()] returns
    exactly these four values. *)
Theorem C10_domain_error_shape c base :
  AiraloErrorMessages !! c = Some base →
  (∀ statusCode, AiraloError.message (AiraloError.new (JNum c) None statusCode) = base) ∧
  (∀ statusCode,
     AiraloError.message (AiraloError.new (JNum c) (Some "") statusCode) = base) ∧
  (∀ s statusCode, s ≠ "" →
     AiraloError.message (AiraloError.new (JNum c) (Some s) statusCode) =
       base +:+ ": " +:+ s) ∧
  (∀ s statusCode,
     AiraloError.code (AiraloError.new (JNum c) s statusCode) = JNum c ∧
     AiraloError.additionalInfo (AiraloError.new (JNum c) s statusCode) = s ∧
     AiraloError.statusCode (AiraloError.new (JNum c) s statusCode) =
       default 422 statusCode) ∧
  (∀ error e, handleAxiosError_known error = Some e →
              AiraloError.statusCode e = 422) ∧
  (∀ e : AiraloError.t,
     AiraloError.toResponse e =
       {| AiraloErrorResponse.message := AiraloError.message e;
          AiraloErrorResponse.errors := None;
          AiraloErrorResponse.code := Some (AiraloError.code e);
          AiraloErrorResponse.status_code := AiraloError.statusCode e;
          AiraloErrorResponse.additional_info := AiraloError.additionalInfo e |}).
Proof.
  intros Hbase. unfold AiraloError.new, AiraloErrorMessages_at.
  rewrite Hbase. simpl.
  repeat split.
  - intros s statusCode Hne. rewrite bool_decide_eq_false_2 by done. reflexivity.
  - intros error e. unfold handleAxiosError_known.
    repeat case_match; try discriminate. intros [= <-]. reflexivity.
Qed.

Lemma C10_domain_error_shape_witness :
  AiraloError.message (AiraloError.new (JNum 11) (Some "balance is 0") None) =
    "Insufficient Airalo Credit: balance is 0" ∧
  AiraloError.statusCode (AiraloError.new (JNum 11) (Some "balance is 0") None) = 422.
Proof.
  destruct (C10_domain_error_shape 11 "Insufficient Airalo Credit" eq_refl)
    as (_ & _ & Hmsg & Hfields & _).
  split.
  - apply Hmsg. discriminate.
  - apply Hfields.
Defined.

End ErrorMappingClaims.

(** ** The monad *)

Section MonadLaws.

Context {A B C : Type}.

Lemma bind_ret_l (value : A) (k : A → M B) st : bind (ret value) k st = k value st.
Proof. reflexivity. Qed.

Lemma bind_assoc (c : M A) (k : A → M B) (k' : B → M C) st :
  bind (bind c k) k' st = bind c (λ value, bind (k value) k') st.
Proof. unfold bind. destruct (c st) as [[value | error |] st']; reflexivity. Qed.

Lemma bind_ext (c : M A) (k k' : A → M B) st :
  (∀ value st', k value st' = k' value st') → bind c k st = bind c k' st.
Proof.
  intros Hk. unfold bind. destruct (c st) as [[value | error |] st']; auto.
Qed.

End MonadLaws.

(** ** The pipeline on the instance the constructor builds *)

Section Pipeline.

Variable server : Server.

Lemma after_nil st : after [] st = st.
Proof. destruct st. unfold after. simpl. by rewrite app_nil_r. Qed.

Lemma after_after events events' st :
  after events' (after events st) = after (events ++ events') st.
Proof. unfold after. simpl. by rewrite app_assoc. Qed.

(** One step of [handleRequest]. *)
Lemma handleRequest_unfold fuel T (requestFn : M (AxiosResponse.t T))
    retryCount st :
  handleRequest server (S fuel) T requestFn retryCount st =
  match requestFn st with
  | (Returned response, st1) => (Returned (AxiosResponse.data response), st1)
  | (Thrown error, st1) =>
      if bool_decide (response_status error = Some 401)
         && bool_decide (retryCount < 1)
      then
        (authenticate server fuel ;;
         handleRequest server fuel T requestFn (retryCount + 1))
          {| this := with_accessToken None (this st1); trace := trace st1 |}
      else if bool_decide (response_status error = Some 429)
              && bool_decide (retryCount < maxRetries (this st1))
      then
        handleRequest server fuel T requestFn (retryCount + 1)
          (after [Slept (retryDelay (this st1) * (retryCount + 1))] st1)
      else (Thrown error, st1)
  | (Pending, st1) => (Pending, st1)
  end.
Proof.
  cbn [handleRequest]. unfold try_catch at 1. unfold bind at 1.
  destruct (requestFn st) as [[response | error |] st1]; try reflexivity.
  unfold bind at 1. unfold get_this at 1.
  destruct (bool_decide (response_status error = Some 401)
            && bool_decide (retryCount < 1)); [reflexivity |].
  destruct (bool_decide (response_status error = Some 429)
            && bool_decide (retryCount < maxRetries (this st1))); reflexivity.
Qed.

(** A call on the instance settles after one attempt: what it rejects with
    has no [response], so neither retry branch of [handleRequest] is
    taken. *)
Lemma handleRequest_intercepted fuel T
    (endpoint : list Event → Request.t → Reply T) request retryCount st :
  handleRequest server (S fuel) T (axiosInstance_request endpoint request)
    retryCount st =
  (settle (endpoint (trace st) request), after [Sent request] st).
Proof.
  rewrite handleRequest_unfold.
  unfold axiosInstance_request, try_catch, dispatchRequest.
  destruct (endpoint (trace st) request) as [response | error]; reflexivity.
Qed.

(** [authenticate] sends one login; it stores the token of a fulfilled
    login, throws a [TypeError] when that login has no [data], and throws
    the mapped failure of a rejected one. *)
Lemma authenticate_run fuel st :
  authenticate server (S fuel) st =
  match token_endpoint server (trace st) (login_request (config (this st))) with
  | Fulfilled response =>
      match AiraloAuthResponse.data (AxiosResponse.data response) with
      | Some data =>
          (Returned (),
           {| this :=
                with_accessToken (AiraloAuthResponse.access_token data) (this st);
              trace := trace st ++ [Sent (login_request (config (this st)))] |})
      | None =>
          (Thrown no_data, after [Sent (login_request (config (this st)))] st)
      end
  | Rejected error =>
      (Thrown (AiraloErr (handleAxiosError error)),
       after [Sent (login_request (config (this st)))] st)
  end.
Proof.
  unfold authenticate, authenticate_with.
  unfold bind at 1. unfold get_this at 1. cbv zeta.
  unfold bind. rewrite handleRequest_intercepted.
  change (post "/v2/token" _ ∅) with (login_request (config (this st))).
  destruct (token_endpoint server (trace st) (login_request (config (this st))))
    as [response | error]; [| reflexivity].
  simpl. by destruct (AiraloAuthResponse.data (AxiosResponse.data response)).
Qed.

Lemma truthy_str_Some token : token ≠ "" → truthy_str (Some token) = true.
Proof. intros Hne. simpl. by rewrite bool_decide_eq_false_2. Qed.

(** With a token held, [getHeaders] touches nothing. *)
Lemma getHeaders_holding fuel st token :
  accessToken (this st) = Some token →
  token ≠ "" →
  getHeaders server fuel st = (Returned (bearer token), st).
Proof.
  intros Htoken Hne. unfold getHeaders, bind, get_this, ret.
  rewrite Htoken, (truthy_str_Some token Hne). cbn [negb].
  rewrite Htoken. reflexivity.
Qed.

(** Without one, it runs [authenticate] first. *)
Lemma getHeaders_lazy fuel st :
  truthy_str (accessToken (this st)) = false →
  getHeaders server (S fuel) st =
  match token_endpoint server (trace st) (login_request (config (this st))) with
  | Fulfilled response =>
      match AiraloAuthResponse.data (AxiosResponse.data response) with
      | Some data =>
          let token := AiraloAuthResponse.access_token data in
          (Returned (bearer (template token)),
           {| this := with_accessToken token (this st);
              trace := trace st ++ [Sent (login_request (config (this st)))] |})
      | None =>
          (Thrown no_data, after [Sent (login_request (config (this st)))] st)
      end
  | Rejected error =>
      (Thrown (AiraloErr (handleAxiosError error)),
       after [Sent (login_request (config (this st)))] st)
  end.
Proof.
  intros Hfalsy. unfold getHeaders.
  unfold bind at 1. unfold get_this at 1. rewrite Hfalsy. cbn [negb].
  unfold bind at 1. rewrite authenticate_run.
  destruct (token_endpoint server (trace st) (login_request (config (this st))))
    as [response | error]; [| reflexivity].
  by destruct (AiraloAuthResponse.data (AxiosResponse.data response)).
Qed.

(** An endpoint method on an instance that holds a token: one call, with
    that token, settled by the reply. *)
Lemma through_holding fuel request st token :
  accessToken (this st) = Some token →
  token ≠ "" →
  through server (S fuel) request st =
  (settle (api server (trace st) (request (bearer token))),
   after [Sent (request (bearer token))] st).
Proof.
  intros Htoken Hne. unfold through, bind.
  rewrite (getHeaders_holding _ _ token Htoken Hne).
  apply handleRequest_intercepted.
Qed.

(** An endpoint method on an instance that holds no token: the login
    first. *)
Lemma through_lazy fuel request st :
  truthy_str (accessToken (this st)) = false →
  through server (S fuel) request st =
  match token_endpoint server (trace st) (login_request (config (this st))) with
  | Fulfilled response =>
      match AiraloAuthResponse.data (AxiosResponse.data response) with
      | Some data =>
          let token := AiraloAuthResponse.access_token data in
          let st1 :=
            {| this := with_accessToken token (this st);
               trace := trace st ++ [Sent (login_request (config (this st)))] |} in
          (settle (api server (trace st1) (request (bearer (template token)))),
           after [Sent (request (bearer (template token)))] st1)
      | None =>
          (Thrown no_data, after [Sent (login_request (config (this st)))] st)
      end
  | Rejected error =>
      (Thrown (AiraloErr (handleAxiosError error)),
       after [Sent (login_request (config (this st)))] st)
  end.
Proof.
  intros Hfalsy. unfold through, bind.
  rewrite (getHeaders_lazy _ _ Hfalsy).
  destruct (token_endpoint server (trace st) (login_request (config (this st))))
    as [response | error]; [| reflexivity].
  destruct (AiraloAuthResponse.data (AxiosResponse.data response)) as [data |];
    [| reflexivity].
  cbv zeta. apply handleRequest_intercepted.
Qed.

(** Every endpoint method is [through] for some call that passes the
    [Authorization] header on. *)
Lemma call_endpoint fuel op :
  is_endpoint op = true →
  ∃ request wrap,
    (∀ st, call server fuel op st = payload wrap (through server fuel request) st) ∧
    (∀ headers,
       Request.headers (request headers) !! "Authorization" =
       headers !! "Authorization").
Proof.
  destruct op; intros Hop; try discriminate Hop;
    (eexists (λ headers, _), _; split;
     [ intros st; unfold call, payload,
         getOrders, getOrder, createOrder, createAsyncOrder, createTopupOrder,
         getOrderStatuses, getOrderStatus, getSIMs, getSIM, getSIMInstructions,
         getSIMUsage, getSIMBrand, updateSIMBrand, getSIMPackages, getSIMTopups,
         getPackages, getCompatibleDevices, optInNotifications,
         optOutNotifications, simulateWebhook, getBalance, redeemESIMVoucher,
         redeemAirmoneyVoucher, through;
       rewrite ?bind_assoc;
       first [ reflexivity
             | apply bind_ext; intros; rewrite ?bind_assoc;
               first [ reflexivity | apply bind_ext; intros; reflexivity ] ]
     | intros headers; cbv beta; unfold get, post, put; cbn [Request.headers];
       first [ reflexivity | by rewrite lookup_insert_ne ] ]).
Qed.

Lemma truthy_str_true token :
  truthy_str token = true → ∃ s, token = Some s ∧ s ≠ "".
Proof.
  destruct token as [s |]; [| discriminate]. simpl.
  intros Hs. exists s. split; [reflexivity |].
  intros ->. discriminate Hs.
Qed.

(** What an endpoint method does, in the two cases of [getHeaders] and the
    three of the login. *)
Lemma through_cases fuel request st :
  (∃ token,
     accessToken (this st) = Some token ∧ token ≠ "" ∧
     through server (S fuel) request st =
       (settle (api server (trace st) (request (bearer token))),
        after [Sent (request (bearer token))] st)) ∨
  (truthy_str (accessToken (this st)) = false ∧
   ∃ error,
     token_endpoint server (trace st) (login_request (config (this st))) =
       Rejected error ∧
     through server (S fuel) request st =
       (Thrown (AiraloErr (handleAxiosError error)),
        after [Sent (login_request (config (this st)))] st)) ∨
  (truthy_str (accessToken (this st)) = false ∧
   ∃ response data,
     token_endpoint server (trace st) (login_request (config (this st))) =
       Fulfilled response ∧
     AiraloAuthResponse.data (AxiosResponse.data response) = Some data ∧
     let token := AiraloAuthResponse.access_token data in
     let st1 :=
       {| this := with_accessToken token (this st);
          trace := trace st ++ [Sent (login_request (config (this st)))] |} in
     through server (S fuel) request st =
       (settle (api server (trace st1) (request (bearer (template token)))),
        after [Sent (request (bearer (template token)))] st1)) ∨
  (truthy_str (accessToken (this st)) = false ∧
   ∃ response,
     token_endpoint server (trace st) (login_request (config (this st))) =
       Fulfilled response ∧
     AiraloAuthResponse.data (AxiosResponse.data response) = None ∧
     through server (S fuel) request st =
       (Thrown no_data, after [Sent (login_request (config (this st)))] st)).
Proof.
  destruct (truthy_str (accessToken (this st))) eqn:Htruthy.
  - left. destruct (truthy_str_true _ Htruthy) as (token & Htoken & Hne).
    exists token. split; [done |]. split; [done |].
    by apply through_holding.
  - right. rewrite (through_lazy fuel request st Htruthy).
    destruct (token_endpoint server (trace st) (login_request (config (this st))))
      as [response | error].
    + right.
      destruct (AiraloAuthResponse.data (AxiosResponse.data response))
        as [data |] eqn:Hdata.
      * left. split; [done |]. by exists response, data.
      * right. split; [done |]. by exists response.
    + left. split; [done |]. by exists error.
Qed.




End Pipeline.


(** ** Headers and requests *)

Section Requests.

Variable server : Server.

(** An endpoint method on an instance that holds [token] sends one call
    with [Authorization: Bearer token] and leaves the instance as it is. *)
Lemma call_endpoint_holding fuel op st token :
  is_endpoint op = true →
  accessToken (this st) = Some token →
  token ≠ "" →
  ∃ out request,
    call server (S fuel) op st = (out, after [Sent request] st) ∧
    Request.headers request !! "Authorization" = Some ("Bearer " +:+ token).
Proof.
  intros Hop Htoken Hne.
  destruct (call_endpoint server (S fuel) op Hop) as (request & wrap & -> & Hauth).
  unfold payload, bind. rewrite (through_holding server fuel request st token Htoken Hne).
  assert (Request.headers (request (bearer token)) !! "Authorization" =
          Some ("Bearer " +:+ token)) as Hheader.
  { rewrite Hauth. unfold bearer. apply lookup_singleton_eq. }
  destruct (settle _); eexists _, (request (bearer token)); by split.
Qed.

(** The same for any number of endpoint calls in a row. *)
Lemma call_all_holding fuel ops st token :
  Forall (λ op, is_endpoint op = true) ops →
  accessToken (this st) = Some token →
  token ≠ "" →
  ∃ sent,
    call_all server (S fuel) ops st = after (Sent <$> sent) st ∧
    length sent = length ops ∧
    Forall (λ request,
              Request.headers request !! "Authorization" =
              Some ("Bearer " +:+ token)) sent.
Proof.
  intros Hops. revert st. induction Hops as [| op ops Hop _ IH]; intros st Htoken Hne.
  - exists []. simpl. by rewrite after_nil.
  - destruct (call_endpoint_holding fuel op st token Hop Htoken Hne)
      as (out & request & Hcall & Hheader).
    destruct (IH (after [Sent request] st) Htoken Hne) as (sent & Hall & Hlen & Hsent).
    exists (request :: sent). split; [| split].
    + unfold call_all in *. simpl. rewrite Hcall. simpl. rewrite Hall.
      by rewrite after_after.
    + simpl. by rewrite Hlen.
    + by constructor.
Qed.

(** C7: when the login is answered with
    [{ data: { access_token: T, token_type, expires_in } }], [authenticate]
    stores [T]; every endpoint call made afterwards sends its request with
    the header [Authorization: Bearer T]; and on an instance that holds no
    token, [getHeaders] performs that login before it returns the header,
    so that the first endpoint call is what triggers the login. *)
Theorem C7_bearer_header_after_login fuel st T token_type expires_in :
  T ≠ "" →
  token_endpoint server (trace st) (login_request (config (this st))) =
    Fulfilled
      (AxiosResponse.mk
         {| AiraloAuthResponse.data :=
              Some {| AiraloAuthResponse.access_token := Some T;
                      AiraloAuthResponse.token_type := token_type;
                      AiraloAuthResponse.expires_in := expires_in |} |}) →
  let st1 :=
    {| this := with_accessToken (Some T) (this st);
       trace := trace st ++ [Sent (login_request (config (this st)))] |} in
  authenticate server (S fuel) st = (Returned (), st1) ∧
  (∀ ops, Forall (λ op, is_endpoint op = true) ops →
     ∃ sent,
       call_all server (S fuel) ops st1 = after (Sent <$> sent) st1 ∧
       length sent = length ops ∧
       Forall (λ request,
                 Request.headers request !! "Authorization" =
                 Some ("Bearer " +:+ T)) sent) ∧
  (truthy_str (accessToken (this st)) = false →
   getHeaders server (S fuel) st = (Returned (bearer T), st1) ∧
   ∀ op, is_endpoint op = true →
     ∃ out request,
       call server (S fuel) op st = (out, after [Sent request] st1) ∧
       Request.headers request !! "Authorization" = Some ("Bearer " +:+ T)).
Proof.
  intros Hne Hlogin st1. split; [| split].
  - rewrite authenticate_run, Hlogin. reflexivity.
  - intros ops Hops. by apply call_all_holding.
  - intros Hfalsy. split.
    + rewrite (getHeaders_lazy server fuel st Hfalsy), Hlogin. reflexivity.
    + intros op Hop.
      destruct (call_endpoint server (S fuel) op Hop)
        as (request & wrap & -> & Hauth).
      unfold payload, bind.
      rewrite (through_lazy server fuel request st Hfalsy), Hlogin. cbv zeta.
      cbn [AiraloAuthResponse.access_token AiraloAuthResponse.data
           AxiosResponse.data template].
      fold st1.
      assert (Request.headers (request (bearer T)) !! "Authorization" =
              Some ("Bearer " +:+ T)) as Hheader.
      { rewrite Hauth. unfold bearer. apply lookup_singleton_eq. }
      destruct (settle _); eexists _, (request (bearer T)); by split.
Qed.

End Requests.

(** C7 on a fresh instance whose login is answered with the token ["T"]:
    [getBalance] sends the login and then its request with
    [Authorization: Bearer T]. *)
Lemma C7_bearer_header_after_login_witness :
  let st1 :=
    {| this := with_accessToken (Some "T") (new_AiraloService test_config);
       trace := [Sent (login_request test_config)] |} in
  accessToken (this fresh) = None ∧
  authenticate (flaky "T" 500 0 JNull) 1 fresh = (Returned (), st1) ∧
  ∃ out request,
    call (flaky "T" 500 0 JNull) 1 GetBalance fresh = (out, after [Sent request] st1) ∧
    Request.headers request !! "Authorization" = Some "Bearer T".
Proof.
  intros st1. split; [reflexivity |].
  destruct (C7_bearer_header_after_login (flaky "T" 500 0 JNull) 0 fresh
              "T" (Some "Bearer") (Some 3600)) as (Hauth & _ & Hlazy).
  - discriminate.
  - reflexivity.
  - split; [exact Hauth |].
    destruct (Hlazy eq_refl) as [_ Hcall]. exact (Hcall GetBalance eq_refl).
Defined.

Section GetOrders.

Variable server : Server.

(** A key is on the wire only if [params] has it with a defined value. *)
Lemma query_lookup_Some request k v :
  Request.query request !! k = Some v →
  (k, Some v) ∈ Request.params request.
Proof.
  unfold Request.query. intros Hlookup.
  apply elem_of_list_to_map_2 in Hlookup.
  apply list_elem_of_omap in Hlookup as ([k' o] & Hin & Hsome).
  simpl in Hsome. destruct o as [v' |]; simplify_eq/=. done.
Qed.

(** The [params] literal of [getOrders], entry by entry. *)
Lemma getOrders_query headers params :
  orders_query_of params
    (Request.query
       (get "/v2/orders" headers
          [ ("include", JStr <$> AiraloOrderListParams.include params);
            ("filter[created_at]", JStr <$> AiraloOrderListParams.createdAt params);
            ("filter[order_status]",
             JStr ∘ AiraloOrderStatus_str
               <$> AiraloOrderListParams.orderStatus params);
            ("filter[description]",
             JStr <$> AiraloOrderListParams.description params);
            ("limit", JNum <$> AiraloOrderListParams.limit params);
            ("page", JNum <$> AiraloOrderListParams.page params) ])).
Proof.
  unfold orders_query_of.
  match goal with |- context [?q !! "include"] => set (query := q) end.
  assert (∀ k v, query !! k = Some v →
                 k ∈ [ "include"; "filter[created_at]"; "filter[order_status]";
                       "filter[description]"; "limit"; "page" ]) as Hdom.
  { intros k v Hlookup. apply query_lookup_Some in Hlookup.
    unfold get in Hlookup. cbn [Request.params] in Hlookup.
    rewrite !elem_of_cons, elem_of_nil in Hlookup.
    rewrite !elem_of_cons.
    destruct_or?; simplify_eq; tauto. }
  subst query.
  destruct params as [include createdAt orderStatus description limit page].
  cbn [AiraloOrderListParams.include AiraloOrderListParams.createdAt
       AiraloOrderListParams.orderStatus AiraloOrderListParams.description
       AiraloOrderListParams.limit AiraloOrderListParams.page] in *.
  destruct include, createdAt, orderStatus, description, limit, page;
    (repeat split; [vm_compute; reflexivity .. | exact Hdom]).
Qed.

(** C8: [getOrders(params)] issues [GET /v2/orders] with the header of
    [getHeaders] and a query in which [include], [filter[created_at]],
    [filter[order_status]], [filter[description]], [limit] and [page] carry
    the caller's [include], [createdAt], [orderStatus], [description],
    [limit] and [page] and nothing else, after the login when no token is
    held, and unless that login fails (the server rejects it, or fulfils it
    without [data]). In particular
    [getOrders({ limit: 10, page: 1, orderStatus: 'completed' })] issues
    [GET /v2/orders] with the query [limit=10], [page=1],
    [filter[order_status]=completed]. *)
Theorem C8_getOrders_request fuel st :
  (∀ params,
     ∃ out st',
       getOrders server (S fuel) params st = (out, st') ∧
       ((∃ error,
           truthy_str (accessToken (this st)) = false ∧
           token_endpoint server (trace st) (login_request (config (this st))) =
             Rejected error ∧
           st' = after [Sent (login_request (config (this st)))] st) ∨
        (∃ response,
           truthy_str (accessToken (this st)) = false ∧
           token_endpoint server (trace st) (login_request (config (this st))) =
             Fulfilled response ∧
           AiraloAuthResponse.data (AxiosResponse.data response) = None ∧
           st' = after [Sent (login_request (config (this st)))] st) ∨
        (∃ prelude request token,
           trace st' = (trace st ++ prelude ++ [Sent request])%list ∧
           (prelude = [] ∨ prelude = [Sent (login_request (config (this st)))]) ∧
           Request.method request = GET ∧
           Request.url request = "/v2/orders" ∧
           Request.data request = NoData ∧
           Request.headers request = bearer token ∧
           orders_query_of params (Request.query request)))) ∧
  (∀ token,
     accessToken (this st) = Some token → token ≠ "" →
     ∃ out request,
       getOrders server (S fuel) completed_orders st =
         (out, after [Sent request] st) ∧
       Request.method request = GET ∧
       Request.url request = "/v2/orders" ∧
       Request.headers request = bearer token ∧
       Request.query request =
         list_to_map [ ("limit", JNum 10); ("page", JNum 1);
                       ("filter[order_status]", JStr "completed") ]).
Proof.
  split.
  - intros params.
    change (getOrders server (S fuel) params st) with
      (through server (S fuel)
         (λ headers,
            get "/v2/orders" headers
              [ ("include", JStr <$> AiraloOrderListParams.include params);
                ("filter[created_at]",
                 JStr <$> AiraloOrderListParams.createdAt params);
                ("filter[order_status]",
                 JStr ∘ AiraloOrderStatus_str
                   <$> AiraloOrderListParams.orderStatus params);
                ("filter[description]",
                 JStr <$> AiraloOrderListParams.description params);
                ("limit", JNum <$> AiraloOrderListParams.limit params);
                ("page", JNum <$> AiraloOrderListParams.page params) ]) st).
    match goal with |- context [through server (S fuel) ?r st] =>
      destruct (through_cases server fuel r st)
        as [(token & _ & _ & ->)
           | [(Hfalsy & error & Herr & ->)
             | [(_ & response & data & _ & _ & Hrun)
               | (Hfalsy & response & Hok & Hdata & ->)]]]
    end.
    + eexists _, _. split; [reflexivity |]. right. right.
      eexists [], _, token. cbn [trace after app].
      split; [reflexivity |]. split; [by left |].
      repeat (split; [reflexivity |]). apply getOrders_query.
    + eexists _, _. split; [reflexivity |]. left. by exists error.
    + cbv zeta in Hrun. rewrite Hrun.
      eexists _, _. split; [reflexivity |]. right. right.
      eexists [Sent (login_request (config (this st)))], _, _.
      cbn [trace after app]. split; [by rewrite <- app_assoc |].
      split; [by right |].
      repeat (split; [reflexivity |]). apply getOrders_query.
    + eexists _, _. split; [reflexivity |]. right. left. by exists response.
  - intros token Htoken Hne.
    change (getOrders server (S fuel) completed_orders st) with
      (through server (S fuel)
         (λ headers,
            get "/v2/orders" headers
              [ ("include", None); ("filter[created_at]", None);
                ("filter[order_status]", Some (JStr "completed"));
                ("filter[description]", None);
                ("limit", Some (JNum 10)); ("page", Some (JNum 1)) ]) st).
    rewrite (through_holding server fuel _ st token Htoken Hne).
    eexists _, _. split; [reflexivity |].
    repeat (split; [reflexivity |]). vm_compute. reflexivity.
Qed.

End GetOrders.

(** C8 on an instance that holds the token ["T"]. *)
Lemma C8_getOrders_request_witness :
  ∃ out request,
    getOrders (flaky "T" 500 0 JNull) 1 completed_orders (holding "T") =
      (out, after [Sent request] (holding "T")) ∧
    Request.method request = GET ∧
    Request.url request = "/v2/orders" ∧
    Request.headers request = bearer "T" ∧
    Request.query request =
      list_to_map [ ("limit", JNum 10); ("page", JNum 1);
                    ("filter[order_status]", JStr "completed") ].
Proof.
  destruct (C8_getOrders_request (flaky "T" 500 0 JNull) 0 (holding "T"))
    as [_ Hexample].
  apply (Hexample "T"); [reflexivity | discriminate].
Defined.

(** ** Retries *)

Section Retries.

Variable server : Server.

(** On the instance of the constructor a failing call is never retried,
    whatever its status: the caller gets the mapped failure of the first
    attempt. *)
Lemma through_rejected fuel request st token error :
  accessToken (this st) = Some token →
  token ≠ "" →
  api server (trace st) (request (bearer token)) = Rejected error →
  through server (S fuel) request st =
    (Thrown (AiraloErr (handleAxiosError error)),
     after [Sent (request (bearer token))] st).
Proof.
  intros Htoken Hne Hapi.
  rewrite (through_holding server fuel request st token Htoken Hne), Hapi.
  reflexivity.
Qed.

(** The steps of [handleRequest] on a thunk that rejects with the raw
    failure of the transport, as the stubbed instance of
    [airalo.service.spec.ts] does: there the retry branches are taken. *)

Lemma handleRequest_raw_fulfilled fuel T
    (endpoint : list Event → Request.t → Reply T) request retryCount st response :
  endpoint (trace st) request = Fulfilled response →
  handleRequest server (S fuel) T (dispatchRequest endpoint request) retryCount st =
    (Returned (AxiosResponse.data response), after [Sent request] st).
Proof.
  intros Hreply. rewrite handleRequest_unfold.
  unfold dispatchRequest at 1. rewrite Hreply. reflexivity.
Qed.

Lemma handleRequest_raw_401 fuel T
    (endpoint : list Event → Request.t → Reply T) request st error :
  endpoint (trace st) request = Rejected error →
  AxiosError.response_status error = Some 401 →
  handleRequest server (S fuel) T (dispatchRequest endpoint request) 0 st =
    (set_accessToken None ;;
     authenticate server fuel ;;
     handleRequest server fuel T (dispatchRequest endpoint request) 1)
      (after [Sent request] st).
Proof.
  intros Hreply Hstatus. rewrite handleRequest_unfold.
  unfold dispatchRequest at 1. rewrite Hreply.
  cbn [response_status]. rewrite Hstatus. reflexivity.
Qed.

Lemma handleRequest_raw_401_again fuel T
    (endpoint : list Event → Request.t → Reply T) request retryCount st error :
  endpoint (trace st) request = Rejected error →
  AxiosError.response_status error = Some 401 →
  1 ≤ retryCount →
  handleRequest server (S fuel) T (dispatchRequest endpoint request) retryCount st =
    (Thrown (AxiosErr error), after [Sent request] st).
Proof.
  intros Hreply Hstatus Hcount. rewrite handleRequest_unfold.
  unfold dispatchRequest at 1. rewrite Hreply.
  cbn [response_status]. rewrite Hstatus.
  rewrite (bool_decide_eq_false_2 (retryCount < 1)) by lia.
  rewrite andb_false_r. reflexivity.
Qed.

Lemma handleRequest_raw_429 fuel T
    (endpoint : list Event → Request.t → Reply T) request retryCount st error :
  endpoint (trace st) request = Rejected error →
  AxiosError.response_status error = Some 429 →
  retryCount < maxRetries (this st) →
  handleRequest server (S fuel) T (dispatchRequest endpoint request) retryCount st =
    handleRequest server fuel T (dispatchRequest endpoint request) (retryCount + 1)
      (after [Sent request; Slept (retryDelay (this st) * (retryCount + 1))] st).
Proof.
  intros Hreply Hstatus Hcount. rewrite handleRequest_unfold.
  unfold dispatchRequest at 1. rewrite Hreply.
  cbn [response_status this]. rewrite Hstatus.
  rewrite (bool_decide_eq_false_2 (Some 429 = Some 401)) by discriminate.
  rewrite (bool_decide_eq_true_2 (Some 429 = Some 429)) by reflexivity.
  rewrite (bool_decide_eq_true_2 (retryCount < maxRetries (this st))) by done.
  cbn [andb]. unfold after. cbn [this trace]. by rewrite <- app_assoc.
Qed.

Lemma handleRequest_raw_429_exhausted fuel T
    (endpoint : list Event → Request.t → Reply T) request retryCount st error :
  endpoint (trace st) request = Rejected error →
  AxiosError.response_status error = Some 429 →
  maxRetries (this st) ≤ retryCount →
  handleRequest server (S fuel) T (dispatchRequest endpoint request) retryCount st =
    (Thrown (AxiosErr error), after [Sent request] st).
Proof.
  intros Hreply Hstatus Hcount. rewrite handleRequest_unfold.
  unfold dispatchRequest at 1. rewrite Hreply.
  cbn [response_status this]. rewrite Hstatus.
  rewrite (bool_decide_eq_false_2 (Some 429 = Some 401)) by discriminate.
  rewrite (bool_decide_eq_false_2 (retryCount < maxRetries (this st))) by lia.
  rewrite andb_false_r. reflexivity.
Qed.

End Retries.

(** ** The retry scenarios *)

Section Scenarios.

Variable body : Json.

(** C1, on the code: an instance that holds the token ['stale'] calls
    [getBalance]; the server answers the first attempt with 401 and would
    answer 200 from then on. The caller gets the domain error with code 53
    and status 401 after that one attempt: the token is still ['stale'], no
    login was sent, and the request was not sent again. *)
Theorem C1_first_401_on_the_constructed_instance fuel :
  getBalance (flaky "fresh" 401 1 body) (S fuel) (holding "stale") =
    (Thrown
       (AiraloErr
          (AiraloError.new (JNum 53) (Some "Request failed with status code 401")
             (Some 401))),
     {| this := this (holding "stale");
        trace := [Sent (balance "stale")] |}).
Proof.
  change (getBalance ?s ?f) with (through s f (λ headers, get "/v2/balance" headers [])).
  rewrite (through_holding _ fuel _ (holding "stale") "stale" eq_refl)
    by discriminate.
  reflexivity.
Qed.

(** The same scenario when the thunk rejects with the raw failure: the
    token is cleared, one login is sent, and the thunk runs once more. The
    thunk is the closure the endpoint method built, so the second attempt
    carries the header made from the old token. *)
Lemma raw_first_401_reauthenticates fuel :
  handleRequest (flaky "fresh" 401 1 body) (S (S fuel)) Json
    (dispatchRequest (api (flaky "fresh" 401 1 body)) (balance "stale")) 0
    (holding "stale") =
    (Returned body,
     {| this := with_accessToken (Some "fresh") (this (holding "stale"));
        trace := [ Sent (balance "stale");
                   Sent (login_request test_config);
                   Sent (balance "stale") ] |}).
Proof.
  rewrite (handleRequest_raw_401 _ _ _ _ _ _ (status_failure 401))
    by reflexivity.
  unfold bind at 1. unfold set_accessToken at 1.
  unfold bind at 1. rewrite authenticate_run.
  cbn [flaky token_endpoint login_ok AiraloAuthResponse.data
       AiraloAuthResponse.access_token AxiosResponse.data].
  rewrite (handleRequest_raw_fulfilled _ _ _ _ _ _ _ (AxiosResponse.mk body))
    by reflexivity.
  reflexivity.
Qed.

(** A second 401 in a row is thrown to the caller as it is: one login, two
    attempts. *)
Lemma raw_second_401_propagates fuel :
  handleRequest (flaky "fresh" 401 2 body) (S (S fuel)) Json
    (dispatchRequest (api (flaky "fresh" 401 2 body)) (balance "stale")) 0
    (holding "stale") =
    (Thrown (AxiosErr (status_failure 401)),
     {| this := with_accessToken (Some "fresh") (this (holding "stale"));
        trace := [ Sent (balance "stale");
                   Sent (login_request test_config);
                   Sent (balance "stale") ] |}).
Proof.
  rewrite (handleRequest_raw_401 _ _ _ _ _ _ (status_failure 401))
    by reflexivity.
  unfold bind at 1. unfold set_accessToken at 1.
  unfold bind at 1. rewrite authenticate_run.
  cbn [flaky token_endpoint login_ok AiraloAuthResponse.data
       AiraloAuthResponse.access_token AxiosResponse.data].
  rewrite (handleRequest_raw_401_again _ _ _ _ _ _ _ (status_failure 401))
    by (reflexivity || lia).
  reflexivity.
Qed.

(** C2, on the code: an instance that holds the token ['T'] calls
    [getBalance]; the server answers the first three attempts with 429 and
    would answer 200 on the fourth. The caller gets the domain error with
    code 53 and status 429 after the first attempt: nothing was waited for
    and the request was not sent again. *)
Theorem C2_first_429_on_the_constructed_instance fuel :
  getBalance (flaky "T" 429 3 body) (S fuel) (holding "T") =
    (Thrown
       (AiraloErr
          (AiraloError.new (JNum 53) (Some "Request failed with status code 429")
             (Some 429))),
     {| this := this (holding "T"); trace := [Sent (balance "T")] |}).
Proof.
  change (getBalance ?s ?f) with (through s f (λ headers, get "/v2/balance" headers [])).
  rewrite (through_holding _ fuel _ (holding "T") "T" eq_refl) by discriminate.
  reflexivity.
Qed.

(** The same scenario when the thunk rejects with the raw failure: three
    retries after delays of 1000, 2000 and 3000, and the fourth attempt
    succeeds. *)
Lemma raw_three_429_then_success fuel :
  handleRequest (flaky "T" 429 3 body) (S (S (S (S fuel)))) Json
    (dispatchRequest (api (flaky "T" 429 3 body)) (balance "T")) 0
    (holding "T") =
    (Returned body,
     {| this := this (holding "T");
        trace := [ Sent (balance "T"); Slept 1000;
                   Sent (balance "T"); Slept 2000;
                   Sent (balance "T"); Slept 3000;
                   Sent (balance "T") ] |}).
Proof.
  do 3 (rewrite (handleRequest_raw_429 _ _ _ _ _ _ _ (status_failure 429))
          by (reflexivity || (cbn; lia))).
  rewrite (handleRequest_raw_fulfilled _ _ _ _ _ _ _ (AxiosResponse.mk body))
    by reflexivity.
  reflexivity.
Qed.

(** A fourth 429 in a row is thrown to the caller as it is. *)
Lemma raw_four_429_propagates fuel :
  handleRequest (flaky "T" 429 4 body) (S (S (S (S fuel)))) Json
    (dispatchRequest (api (flaky "T" 429 4 body)) (balance "T")) 0
    (holding "T") =
    (Thrown (AxiosErr (status_failure 429)),
     {| this := this (holding "T");
        trace := [ Sent (balance "T"); Slept 1000;
                   Sent (balance "T"); Slept 2000;
                   Sent (balance "T"); Slept 3000;
                   Sent (balance "T") ] |}).
Proof.
  do 3 (rewrite (handleRequest_raw_429 _ _ _ _ _ _ _ (status_failure 429))
          by (reflexivity || (cbn; lia))).
  rewrite (handleRequest_raw_429_exhausted _ _ _ _ _ _ _ (status_failure 429))
    by (reflexivity || (cbn; lia)).
  reflexivity.
Qed.

(** The test 'should handle rate limiting' of [airalo.service.spec.ts]: its
    stubbed [get] rejects twice with [{ response: { status: 429 } }] and
    then resolves; the test expects the payload after three calls. *)
Lemma raw_rate_limiting_test fuel :
  let '(out, st') :=
    handleRequest (flaky "test-token" 429 2 body) (S (S (S fuel))) Json
      (dispatchRequest (api (flaky "test-token" 429 2 body))
         (balance "test-token")) 0
      (holding "test-token") in
  out = Returned body ∧ length (requests (trace st')) = 3%nat.
Proof.
  do 2 (rewrite (handleRequest_raw_429 _ _ _ _ _ _ _ (status_failure 429))
          by (reflexivity || (cbn; lia))).
  rewrite (handleRequest_raw_fulfilled _ _ _ _ _ _ _ (AxiosResponse.mk body))
    by reflexivity.
  split; reflexivity.
Qed.

End Scenarios.

(** ** The state of an instance *)

Section InstanceState.

Variable server : Server.

Lemma same_readonly_refl a : same_readonly a a.
Proof. by repeat split. Qed.


Lemma same_readonly_with_accessToken token a :
  same_readonly a (with_accessToken token a).
Proof. by repeat split. Qed.


(** One public call: the read-only fields stay, the trace grows, and the
    token is the old one or the one a login of this call was answered
    with. *)
Lemma call_frame fuel op st :
  let st' := (call server (S fuel) op st).2 in
  same_readonly (this st) (this st') ∧
  trace st `prefix_of` trace st' ∧
  (accessToken (this st') = accessToken (this st) ∨
   issued server (trace st) (trace st') (accessToken (this st'))).
Proof.
  assert (∀ request wrap,
            let st' := (payload wrap (through server (S fuel) request) st).2 in
            same_readonly (this st) (this st') ∧
            trace st `prefix_of` trace st' ∧
            (accessToken (this st') = accessToken (this st) ∨
             issued server (trace st) (trace st') (accessToken (this st'))))
    as Hthrough.
  { intros request wrap. unfold payload, bind.
    destruct (through_cases server fuel request st)
      as [(token & _ & _ & ->)
         | [(_ & error & _ & ->)
           | [(_ & response & data & Hok & Hdata & Hrun)
             | (_ & response & _ & _ & ->)]]].
    - destruct (settle _); cbn [snd after this trace];
        (split; [apply same_readonly_refl |]; split; [by apply prefix_app_r |]; by left).
    - cbn [snd after this trace].
      split; [apply same_readonly_refl |]. split; [by apply prefix_app_r |]. by left.
    - cbv zeta in Hrun. rewrite Hrun.
      destruct (settle _); cbn [snd after this trace with_accessToken accessToken];
        (split; [apply same_readonly_with_accessToken |];
         split; [by do 2 apply prefix_app_r |];
         right;
         exists (trace st), (login_request (config (this st))), response, data;
         split; [done |]; split; [by apply prefix_app_r |]; done).
    - cbn [snd after this trace].
      split; [apply same_readonly_refl |]. split; [by apply prefix_app_r |]. by left. }
  destruct (is_endpoint op) eqn:Hop.
  - destruct (call_endpoint server (S fuel) op Hop) as (request & wrap & Hcall & _).
    rewrite Hcall. apply Hthrough.
  - destruct op; try discriminate Hop.
    unfold call, payload, bind. rewrite authenticate_run.
    destruct (token_endpoint server (trace st) (login_request (config (this st))))
      as [response | error] eqn:Hlogin.
    + destruct (AiraloAuthResponse.data (AxiosResponse.data response))
        as [data |] eqn:Hdata;
        cbn [snd after this trace accessToken with_accessToken].
      * split; [apply same_readonly_with_accessToken |].
        split; [by apply prefix_app_r |].
        right.
        by exists (trace st), (login_request (config (this st))), response, data.
      * split; [apply same_readonly_refl |]. split; [by apply prefix_app_r |].
        by left.
    + cbn [snd after this trace accessToken with_accessToken]. split; [apply same_readonly_refl |]. split; [by apply prefix_app_r |]. by left.
Qed.






End InstanceState.



(** * Further properties *)

(** ** The error mapping *)

Section MappedErrors.

Lemma catch_all_is_known : 53 ∈ known_codes.
Proof. apply elem_of_app. right. constructor. Qed.

Lemma known_code_message c :
c ∈ known_codes → ∃ base, AiraloErrorMessages !! c = Some base.
Proof.
unfold known_codes, business_codes. simpl.
rewrite !elem_of_cons, elem_of_nil.
intros H; destruct_or?; subst; try tauto; eexists; vm_compute; reflexivity.
Qed.

Lemma member_name_message name :
name ∈ member_names → AiraloErrorMessages_at (JStr name) = None.
Proof.
unfold member_names. rewrite !elem_of_cons, elem_of_nil.
intros H; destruct_or?; subst; try tauto; vm_compute; reflexivity.
Qed.

(** When the first [throw] is reached, the status is 422 and the code of the
  body is a number or a name of the enum, which the error then carries. *)
Lemma handleAxiosError_known_inv error e :
handleAxiosError_known error = Some e →
∃ code,
  AxiosError.response_status error = Some 422 ∧
  (AxiosError.response_data error ≫= ErrorBody.code) ≫= scalar = Some code ∧
  ((∃ c, code = JNum c ∧ c ∈ known_codes) ∨
   (∃ name, code = JStr name ∧ name ∈ member_names)) ∧
  e = AiraloError.new code
        (or_str (AxiosError.response_data error ≫= ErrorBody.additional_info)
                (AxiosError.response_data error ≫= ErrorBody.message)) None.
Proof.
unfold handleAxiosError_known.
destruct (bool_decide (AxiosError.response_status error = Some 422)) eqn:Hstatus;
  [| discriminate].
apply bool_decide_eq_true_1 in Hstatus.
destruct (truthy_json _); [| discriminate]. cbn [andb].
destruct ((AxiosError.response_data error ≫= ErrorBody.code) ≫= scalar)
  as [code |]; [| discriminate].
destruct (includes AiraloErrorCode.values code) eqn:Hin; [| discriminate].
intros [= <-]. exists code. split; [exact Hstatus |]. split; [reflexivity |].
split; [| reflexivity].
destruct code as [c | name].
- left. exists c. split; [reflexivity |].
  rewrite includes_values_num in Hin. by apply bool_decide_eq_true_1 in Hin.
- right. exists name. split; [reflexivity |].
  rewrite includes_values_str in Hin. by apply bool_decide_eq_true_1 in Hin.
Qed.

(** X1: whatever the transport rejects with, the domain error carries a
  value of the compiled enum. When that is one of the eight numbers, the
  message is the canonical message of the code, alone or followed by
  [': '] and the non-empty additional info. It is the name of a member
  only when a 422 body carried that name as its code; the message table
  has no entry for a name, and the message is then empty, or reads
  ['undefined: '] followed by the non-empty additional info. *)
Theorem mapped_error_code_and_message error :
let e := handleAxiosError error in
(∃ c base,
   AiraloError.code e = JNum c ∧ c ∈ known_codes ∧
   AiraloErrorMessages !! c = Some base ∧
   (AiraloError.message e = base ∨
    ∃ info,
      info ≠ "" ∧ AiraloError.additionalInfo e = Some info ∧
      AiraloError.message e = base +:+ ": " +:+ info)) ∨
(∃ name,
   AiraloError.code e = JStr name ∧ name ∈ member_names ∧
   AxiosError.response_status error = Some 422 ∧
   AxiosError.response_data error ≫= ErrorBody.code = Some (JString name) ∧
   (AiraloError.message e = "" ∨
    ∃ info,
      info ≠ "" ∧ AiraloError.additionalInfo e = Some info ∧
      AiraloError.message e = "undefined: " +:+ info)).
Proof.
assert (∀ c s statusCode,
          c ∈ known_codes →
          let e := AiraloError.new (JNum c) s statusCode in
          ∃ c base,
            AiraloError.code e = JNum c ∧ c ∈ known_codes ∧
            AiraloErrorMessages !! c = Some base ∧
            (AiraloError.message e = base ∨
             ∃ info,
               info ≠ "" ∧ AiraloError.additionalInfo e = Some info ∧
               AiraloError.message e = base +:+ ": " +:+ info)) as Hnew.
{ intros c s statusCode Hin e.
  destruct (known_code_message c Hin) as [base Hbase].
  exists c, base. split; [reflexivity |]. split; [exact Hin |].
  split; [exact Hbase |].
  subst e. unfold AiraloError.new, AiraloErrorMessages_at.
  cbn [AiraloError.message AiraloError.additionalInfo].
  rewrite Hbase. destruct (truthy_str s) eqn:Htruthy; [| by left].
  right. destruct (truthy_str_true s Htruthy) as (info & -> & Hne).
  by exists info. }
intros e. subst e. unfold handleAxiosError.
destruct (handleAxiosError_known error) as [e |] eqn:Hknown.
- destruct (handleAxiosError_known_inv error e Hknown)
    as (code & Hstatus & Hcode & [(c & -> & Hin) | (name & -> & Hin)] & ->).
  + left. by apply Hnew.
  + right. exists name. split; [reflexivity |]. split; [exact Hin |].
    split; [exact Hstatus |]. split.
    * destruct (AxiosError.response_data error ≫= ErrorBody.code)
        as [[| | | | |] |]; simplify_eq/=; reflexivity.
    * unfold AiraloError.new.
      cbn [AiraloError.message AiraloError.additionalInfo].
      rewrite (member_name_message name Hin).
      destruct (truthy_str (or_str _ _)) eqn:Htruthy; [| by left].
      right. destruct (truthy_str_true _ Htruthy) as (info & -> & Hne).
      by exists info.
- left. apply Hnew. exact catch_all_is_known.
Qed.

(** X2: the status of the domain error is never 0: a response whose status
  is 0 is reported as 500, like a failure without response. *)
Theorem mapped_status_is_never_zero error :
AiraloError.statusCode (handleAxiosError error) ≠ 0 ∧
(AxiosError.response_status error = Some 0 →
 AiraloError.statusCode (handleAxiosError error) = 500).
Proof.
unfold handleAxiosError.
destruct (handleAxiosError_known error) as [e |] eqn:Hknown.
- destruct (handleAxiosError_known_inv error e Hknown)
    as (code & Hstatus & _ & _ & ->).
  split; [done |]. intros Hzero. congruence.
- cbn [AiraloError.new AiraloError.statusCode default].
  split.
  + destruct (AxiosError.response_status error) as [n |]; cbn; [| done].
    case_bool_decide; done.
  + intros ->. reflexivity.
Qed.

Lemma mapped_status_is_never_zero_witness :
AiraloError.statusCode
  (handleAxiosError (failure (Some "Network Error") 0 None)) = 500.
Proof.
apply (mapped_status_is_never_zero (failure (Some "Network Error") 0 None)).
reflexivity.
Defined.

(** X3: a 422 whose body carries the catch-all code 53 itself is not treated
  as unexpected: the failure's own message is dropped, the additional info
  is the body's non-empty [additional_info], else its [message], and the
  status is 422. *)
Theorem catch_all_code_in_a_422_body message body :
ErrorBody.code body = Some (JNumber 53) →
let e := handleAxiosError (failure message 422 (Some body)) in
AiraloError.code e = JNum 53 ∧
AiraloError.statusCode e = 422 ∧
(∀ info, ErrorBody.additional_info body = Some info → info ≠ "" →
         AiraloError.additionalInfo e = Some info) ∧
(ErrorBody.additional_info body = None ∨
 ErrorBody.additional_info body = Some "" →
 AiraloError.additionalInfo e = ErrorBody.message body).
Proof.
intros Hc e. subst e.
rewrite (handleAxiosError_422_known message body 53 Hc)
  by exact catch_all_is_known.
cbn [AiraloError.new AiraloError.code AiraloError.statusCode
     AiraloError.additionalInfo default].
split; [reflexivity |]. split; [reflexivity |]. unfold or_str. split.
- intros info -> Hne. by rewrite (truthy_str_Some info Hne).
- intros [-> | ->]; reflexivity.
Qed.

Lemma catch_all_code_in_a_422_body_witness :
let body := {| ErrorBody.code := Some (JNumber 53);
               ErrorBody.message := Some "Something went wrong";
               ErrorBody.additional_info := None |} in
AiraloError.additionalInfo
  (handleAxiosError
     (failure (Some "Request failed with status code 422") 422 (Some body))) =
  Some "Something went wrong".
Proof.
intros body.
destruct (catch_all_code_in_a_422_body
            (Some "Request failed with status code 422") body eq_refl)
  as (_ & _ & _ & Habsent).
apply Habsent. by left.
Defined.

(** X4: [toResponse()] loses nothing: constructing an error again from the
  code, additional info and status of its response gives the same error,
  and the response carries the same message. *)
Theorem toResponse_round_trip c s statusCode :
let e := AiraloError.new c s statusCode in
let r := AiraloError.toResponse e in
AiraloErrorResponse.code r = Some c ∧
AiraloErrorResponse.message r = AiraloError.message e ∧
AiraloError.new c (AiraloErrorResponse.additional_info r)
  (Some (AiraloErrorResponse.status_code r)) = e.
Proof. by destruct statusCode. Qed.

End MappedErrors.

(** ** The retry logic of [handleRequest] on a thunk that rejects with the raw failure *)

Section RawRetries.

Variable server : Server.
Context {T : Type}.
Variable endpoint : list Event → Request.t → Reply T.
Variable request : Request.t.

Lemma backoff_trace_more retryDelay retryCount m :
(1 ≤ m)%nat →
backoff_trace request retryDelay retryCount (S m) =
  Sent request :: Slept (retryDelay * (retryCount + 1))
    :: backoff_trace request retryDelay (retryCount + 1) m.
Proof. destruct m; [lia | reflexivity]. Qed.

(** Once the counter is at least 1 only the 429 branch is left: the run is a
  row of attempts separated by growing delays, as many as the counter still
  allows. *)
Lemma handleRequest_raw_tail b :
∀ fuel retryCount st,
  1 ≤ retryCount →
  Z.to_nat (maxRetries (this st) - retryCount) = b →
  (b < fuel)%nat →
  ∃ out m,
    handleRequest server fuel T (dispatchRequest endpoint request) retryCount st =
      (out, after (backoff_trace request (retryDelay (this st)) retryCount m) st) ∧
    out ≠ Pending ∧
    (1 ≤ m ≤ b + 1)%nat.
Proof.
induction b as [| b IH]; intros fuel retryCount st Hcount Hbudget Hfuel;
  (destruct fuel as [| fuel]; [lia |]);
  rewrite handleRequest_unfold; unfold dispatchRequest at 1;
  (destruct (endpoint (trace st) request) as [response | error];
   [ exists (Returned (AxiosResponse.data response)), 1%nat;
     split; [reflexivity |]; split; [done | lia] |]);
  rewrite (bool_decide_eq_false_2 (retryCount < 1)) by lia;
  rewrite andb_false_r; cbn [this];
  (destruct (bool_decide (response_status (AxiosErr error) = Some 429)
             && bool_decide (retryCount < maxRetries (this st))) eqn:H429;
   [| exists (Thrown (AxiosErr error)), 1%nat;
      split; [reflexivity |]; split; [done | lia] ]);
  apply andb_true_iff in H429 as [_ Hlt]; apply bool_decide_eq_true_1 in Hlt;
  [lia |].
destruct (IH fuel (retryCount + 1)
            (after [Slept (retryDelay (this st) * (retryCount + 1))]
               {| this := this st; trace := trace st ++ [Sent request] |}))
  as (out & m & Hrun & Hout & Hm); [lia | cbn [this after]; lia | lia |].
exists out, (S m). rewrite Hrun. split; [| split; [done | lia]].
rewrite backoff_trace_more by lia.
unfold after. cbn [this trace]. by rewrite <- !app_assoc.
Qed.

(** X5: [handleRequest] is bounded. On an instance with [maxRetries = 3], a
  call with counter 0 settles and leaves one of three traces: up to four
  attempts separated by delays of 1, 2 and 3 times [retryDelay]; or an
  attempt and a failed login, with the token cleared and the login's
  domain error thrown (or the [TypeError] of a login fulfilled without
  [data]); or an attempt, a login, and up to three more
  attempts of the same request, separated by delays of 2 and 3 times
  [retryDelay], with the new token held. So there are never more than four
  attempts, one login and three delays. *)
Theorem handleRequest_raw_is_bounded fuel st :
maxRetries (this st) = 3 →
(4 < fuel)%nat →
∃ out st',
  handleRequest server fuel T (dispatchRequest endpoint request) 0 st = (out, st') ∧
  out ≠ Pending ∧
  ((∃ m, (1 ≤ m ≤ 4)%nat ∧
         st' = after (backoff_trace request (retryDelay (this st)) 0 m) st) ∨
   (∃ thrown,
      out = Thrown thrown ∧
      (thrown = no_data ∨
       ∃ login_error, thrown = AiraloErr (handleAxiosError login_error)) ∧
      st' = {| this := with_accessToken None (this st);
               trace := trace st ++ [ Sent request;
                                      Sent (login_request (config (this st))) ] |}) ∨
   (∃ token m,
      (1 ≤ m ≤ 3)%nat ∧
      st' = {| this := with_accessToken token (this st);
               trace := trace st
                          ++ [ Sent request;
                               Sent (login_request (config (this st))) ]
                          ++ backoff_trace request (retryDelay (this st)) 1 m |})).
Proof.
intros Hmax Hfuel. destruct fuel as [| fuel]; [lia |].
rewrite handleRequest_unfold. unfold dispatchRequest at 1.
destruct (endpoint (trace st) request) as [response | error].
{ eexists _, _. split; [reflexivity |]. split; [done |].
  left. exists 1%nat. split; [lia | reflexivity]. }
cbn [this].
destruct (bool_decide (response_status (AxiosErr error) = Some 401)
          && bool_decide (0 < 1)) eqn:H401.
- (* re-authentication *)
  destruct fuel as [| fuel]; [lia |].
  unfold bind at 1. rewrite authenticate_run. cbn [this trace config with_accessToken].
  destruct (token_endpoint server (trace st ++ [Sent request])
              (login_request (config (this st)))) as [login | login_error].
  + destruct (AiraloAuthResponse.data (AxiosResponse.data login)) as [data |].
    2: { eexists _, _. split; [reflexivity |]. split; [done |].
         right. left. exists no_data. split; [reflexivity |].
         split; [by left |].
         unfold after. cbn [this trace]. by rewrite <- app_assoc. }
    set (token := AiraloAuthResponse.access_token data).
    match goal with
    | |- context [handleRequest server (S fuel) T _ (0 + 1) ?s] =>
        destruct (handleRequest_raw_tail 2 (S fuel) (0 + 1) s)
          as (out & m & Hrun & Hout & Hm);
        [lia | cbn [this maxRetries with_accessToken]; rewrite Hmax; reflexivity
        | lia |]
    end.
    rewrite Hrun. eexists _, _. split; [reflexivity |]. split; [exact Hout |].
    right. right. exists token, m. split; [lia |].
    unfold after. cbn [this trace retryDelay with_accessToken].
    by rewrite <- !app_assoc.
  + eexists _, _. split; [reflexivity |]. split; [done |].
    right. left. exists (AiraloErr (handleAxiosError login_error)).
    split; [reflexivity |]. split; [right; by exists login_error |].
    unfold after. cbn [this trace]. by rewrite <- app_assoc.
- destruct (bool_decide (response_status (AxiosErr error) = Some 429)
            && bool_decide (0 < maxRetries (this st))) eqn:H429.
  + destruct (handleRequest_raw_tail 2 fuel (0 + 1)
                (after [Slept (retryDelay (this st) * (0 + 1))]
                   {| this := this st; trace := trace st ++ [Sent request] |}))
      as (out & m & Hrun & Hout & Hm);
      [lia | cbn [this after]; rewrite Hmax; reflexivity | lia |].
    rewrite Hrun. eexists _, _. split; [reflexivity |]. split; [exact Hout |].
    left. exists (S m). split; [lia |].
    rewrite backoff_trace_more by lia.
    unfold after. cbn [this trace]. by rewrite <- !app_assoc.
  + eexists _, _. split; [reflexivity |]. split; [done |].
    left. exists 1%nat. split; [lia | reflexivity].
Qed.

(** X6: a failure whose status is neither 401 nor 429, or that has no
  response at all, is thrown as it is after the one attempt, whatever the
  counter. *)
Theorem handleRequest_raw_other_failure fuel retryCount st error :
endpoint (trace st) request = Rejected error →
AxiosError.response_status error ≠ Some 401 →
AxiosError.response_status error ≠ Some 429 →
handleRequest server (S fuel) T (dispatchRequest endpoint request) retryCount st =
  (Thrown (AxiosErr error), after [Sent request] st).
Proof.
intros Hreply H401 H429. rewrite handleRequest_unfold.
unfold dispatchRequest at 1. rewrite Hreply. cbn [response_status].
rewrite (bool_decide_eq_false_2 _ H401), (bool_decide_eq_false_2 _ H429).
reflexivity.
Qed.

(** X7: when the re-authentication after a 401 fails, the request is not
  sent again, the caller gets the domain error of the login instead of the
  401, and the instance is left without a token. *)
Theorem handleRequest_raw_reauthentication_fails fuel st error login_error :
endpoint (trace st) request = Rejected error →
AxiosError.response_status error = Some 401 →
token_endpoint server (trace st ++ [Sent request])
  (login_request (config (this st))) = Rejected login_error →
handleRequest server (S (S fuel)) T (dispatchRequest endpoint request) 0 st =
  (Thrown (AiraloErr (handleAxiosError login_error)),
   {| this := with_accessToken None (this st);
      trace := trace st ++ [ Sent request;
                             Sent (login_request (config (this st))) ] |}).
Proof.
intros Hreply Hstatus Hlogin.
rewrite (handleRequest_raw_401 _ _ _ _ _ _ error Hreply Hstatus).
unfold bind at 1. unfold set_accessToken at 1.
unfold bind at 1. rewrite authenticate_run.
cbn [after this trace config]. rewrite Hlogin.
unfold after. cbn [this trace]. by rewrite <- app_assoc.
Qed.

End RawRetries.

Lemma handleRequest_raw_is_bounded_witness :
  ∃ out st',
    handleRequest (flaky "T" 429 9 JNull) 5 Json
      (dispatchRequest (api (flaky "T" 429 9 JNull)) (balance "T")) 0
      (holding "T") = (out, st') ∧
    out ≠ Pending.
Proof.
  destruct (handleRequest_raw_is_bounded (flaky "T" 429 9 JNull)
              (api (flaky "T" 429 9 JNull)) (balance "T") 5 (holding "T"))
    as (out & st' & Hrun & Hout & _); [reflexivity | lia |].
  by exists out, st'.
Defined.

Lemma handleRequest_raw_other_failure_witness :
  handleRequest (flaky "T" 500 1 JNull) 1 Json
    (dispatchRequest (api (flaky "T" 500 1 JNull)) (balance "T")) 0
    (holding "T") =
    (Thrown (AxiosErr (status_failure 500)),
     after [Sent (balance "T")] (holding "T")).
Proof.
  apply (handleRequest_raw_other_failure (flaky "T" 500 1 JNull)
           (api (flaky "T" 500 1 JNull)) (balance "T") 0 0 (holding "T")
           (status_failure 500)); [reflexivity | discriminate | discriminate].
Defined.

(** A server that answers a first call with 401 and then refuses the login
    with 403. *)
Lemma handleRequest_raw_reauthentication_fails_witness :
  let server :=
    {| token_endpoint := λ _ _, Rejected (status_failure 403);
       api := λ _ _, Rejected (status_failure 401) |} in
  accessToken
    (this (handleRequest server 2 Json
             (dispatchRequest (api server) (balance "T")) 0 (holding "T")).2) =
    None.
Proof.
  intros server.
  rewrite (handleRequest_raw_reauthentication_fails server (api server)
             (balance "T") 0 (holding "T") (status_failure 401)
             (status_failure 403)); reflexivity.
Defined.

(** ** Forms, paths and queries of the endpoint methods *)

Section Forms.

Variable server : Server.

Lemma truthy_str_false value :
truthy_str value = false → value = None ∨ value = Some "".
Proof.
destruct value as [v |]; [| by left]. simpl.
case_bool_decide; [subst; by right | discriminate].
Qed.

Lemma append_if_optional name value formData :
append_if name value formData = (formData ++ optional_entry name value)%list.
Proof.
unfold append_if, optional_entry, append.
destruct value as [v |]; simpl; [| by rewrite app_nil_r].
case_bool_decide; case_decide; simpl; try done. by rewrite app_nil_r.
Qed.

Lemma elem_of_optional_entry name value n v :
(n, v) ∈ optional_entry name value ↔ n = name ∧ value = Some v ∧ v ≠ "".
Proof.
unfold optional_entry. destruct value as [v' |].
- case_decide as Hempty.
  + subst v'. rewrite elem_of_nil. split; [done |].
    intros (_ & [= <-] & Hne). done.
  + rewrite list_elem_of_singleton. split.
    * intros [= -> ->]. done.
    * intros (-> & [= ->] & _). done.
- rewrite elem_of_nil. split; [done |]. intros (_ & [=] & _).
Qed.

Lemma optional_entry_keys name value :
form_keys (optional_entry name value) = [] ∨
form_keys (optional_entry name value) = [name].
Proof.
unfold optional_entry. destruct value as [v |]; [| by left].
case_decide; [by left | by right].
Qed.

End Forms.

Section EndpointRequests.

Variable server : Server.
Variable fuel : nat.
Variable st : State.
Variable token : string.
Hypothesis Htoken : accessToken (this st) = Some token.
Hypothesis Hne : token ≠ "".

(** Runs an endpoint method on the instance that holds [token]. *)
Ltac run_endpoint method :=
unfold method, bind;
rewrite (getHeaders_holding server _ st token Htoken Hne);
cbv zeta; rewrite ?handleRequest_intercepted.

Ltac concrete_NoDup :=
solve [ apply (bool_decide_unpack _); vm_compute; exact I ].

(** X8: [createOrder] posts a multipart form to [/v2/orders] that starts
  with [quantity] (a safe integer, in decimal), [package_id] and [type];
  [type] is the caller's, and reads ['undefined'] when the order data has
  none. After these come exactly the optional fields among [description],
  [brand_settings_name] and [webhook_url] that are present and not empty,
  and no field is sent twice. *)
Theorem createOrder_form orderData :
∃ out formData optional,
  createOrder server (S fuel) orderData st =
    (out,
     after [Sent (post "/v2/orders" (FormData formData) (multipart token))] st) ∧
  formData =
    ([ ("quantity",
        SafeInteger.toString (AiraloOrderCreateParams.quantity orderData));
       ("package_id", AiraloOrderCreateParams.package_id orderData);
       ("type",
        match AiraloOrderCreateParams.type orderData with
        | Some type => type
        | None => "undefined"
        end) ] ++ optional)%list ∧
  (∀ n v,
     (n, v) ∈ optional ↔
     v ≠ "" ∧
     (n = "description" ∧ AiraloOrderCreateParams.description orderData = Some v ∨
      n = "brand_settings_name" ∧
        AiraloOrderCreateParams.brand_settings_name orderData = Some v ∨
      n = "webhook_url" ∧ AiraloOrderCreateParams.webhook_url orderData = Some v)) ∧
  NoDup (form_keys formData).
Proof.
set (optional :=
       (optional_entry "description" (AiraloOrderCreateParams.description orderData)
          ++ optional_entry "brand_settings_name"
               (AiraloOrderCreateParams.brand_settings_name orderData)
          ++ optional_entry "webhook_url"
               (AiraloOrderCreateParams.webhook_url orderData))%list).
eexists _,
  ([ ("quantity",
      SafeInteger.toString (AiraloOrderCreateParams.quantity orderData));
     ("package_id", AiraloOrderCreateParams.package_id orderData);
     ("type", template (AiraloOrderCreateParams.type orderData)) ]
     ++ optional)%list,
  optional.
split; [| split; [reflexivity |]; split].
- run_endpoint createOrder. rewrite !append_if_optional. unfold append.
  cbn [app]. subst optional. rewrite <- !app_assoc. reflexivity.
- intros n v. subst optional.
  rewrite !elem_of_app, !elem_of_optional_entry. tauto.
- unfold form_keys. subst optional. rewrite !fmap_app.
  destruct (optional_entry_keys "description"
              (AiraloOrderCreateParams.description orderData)) as [Hd | Hd];
    destruct (optional_entry_keys "brand_settings_name"
                (AiraloOrderCreateParams.brand_settings_name orderData))
      as [Hb | Hb];
    destruct (optional_entry_keys "webhook_url"
                (AiraloOrderCreateParams.webhook_url orderData)) as [Hw | Hw];
    unfold form_keys in Hd, Hb, Hw; rewrite Hd, Hb, Hw; concrete_NoDup.
Qed.

(** X9: [createAsyncOrder] posts to [/v2/orders-async] the very form that
  [createOrder] posts for the same order data, followed by [callback_url]
  unless that is the empty string. *)
Theorem createAsyncOrder_extends_createOrder orderData :
∃ out out' formData,
  createOrder server (S fuel) (AiraloOrderAsyncParams.base orderData) st =
    (out,
     after [Sent (post "/v2/orders" (FormData formData) (multipart token))] st) ∧
  createAsyncOrder server (S fuel) orderData st =
    (out',
     after [Sent (post "/v2/orders-async"
                    (FormData
                       (formData ++
                          if decide (AiraloOrderAsyncParams.callback_url orderData = "")
                          then []
                          else [ ("callback_url",
                                  AiraloOrderAsyncParams.callback_url orderData) ]))
                    (multipart token))] st).
Proof.
eexists _, _, _. split; [run_endpoint createOrder; reflexivity |].
run_endpoint createAsyncOrder.
rewrite (append_if_optional "callback_url"). reflexivity.
Qed.


(** X11: [updateSIMBrand] always issues its PUT: without a brand name, or
  with an empty one, the multipart form it sends is empty. *)
Theorem updateSIMBrand_form iccid brand_settings_name :
∃ out formData,
  updateSIMBrand server (S fuel) iccid brand_settings_name st =
    (out,
     after [Sent (put ("/v2/sims/" +:+ iccid +:+ "/brand") (FormData formData)
                    (multipart token))] st) ∧
  (brand_settings_name = None ∨ brand_settings_name = Some "" → formData = []) ∧
  (∀ v, brand_settings_name = Some v → v ≠ "" →
        formData = [("brand_settings_name", v)]).
Proof.
exists (settle (api server (trace st)
                  (put ("/v2/sims/" +:+ iccid +:+ "/brand")
                     (FormData (optional_entry "brand_settings_name"
                                  brand_settings_name))
                     (multipart token)))),
  (optional_entry "brand_settings_name" brand_settings_name).
split; [| split].
- run_endpoint updateSIMBrand. rewrite append_if_optional. reflexivity.
- intros [-> | ->]; reflexivity.
- intros v -> Hv. unfold optional_entry. by case_decide.
Qed.

(** X12: [getOrder] requests [/v2/orders/] followed by the id (a safe
  integer) in decimal, with [include] as its only query parameter when it
  is given; two different ids are never requested at the same URL. *)
Theorem getOrder_request orderId include :
∃ out request,
  getOrder server (S fuel) orderId include st = (out, after [Sent request] st) ∧
  Request.method request = GET ∧
  Request.url request = "/v2/orders/" +:+ SafeInteger.toString orderId ∧
  Request.headers request = bearer token ∧
  Request.query request =
    match include with
    | Some include => {[ "include" := JStr include ]}
    | None => ∅
    end ∧
  ∀ orderId' include' out' request',
    getOrder server (S fuel) orderId' include' st =
      (out', after [Sent request'] st) →
    Request.url request' = Request.url request →
    SafeInteger.value orderId' = SafeInteger.value orderId.
Proof.
eexists _, _. split; [run_endpoint getOrder; reflexivity |].
repeat (split; [reflexivity |]). split.
- destruct include; vm_compute; reflexivity.
- intros orderId' include' out' request'. run_endpoint getOrder.
  intros [= _ Hsent]. apply app_inv_head in Hsent. injection Hsent as <-.
  cbn [Request.url get String.append]. intros Hurl.
  unfold SafeInteger.toString in Hurl. by simplify_eq/=.
Qed.

(** The [params] literal of [getPackages], entry by entry. *)
Lemma getPackages_query headers params :
packages_query_of params
  (Request.query
     (get "/v2/packages" headers
        [ ("filter[type]",
           JStr ∘ AiraloPackageType_str <$> AiraloPackageListParams.type params);
          ("filter[country]", JStr <$> AiraloPackageListParams.country params);
          ("limit", JNum <$> AiraloPackageListParams.limit params);
          ("page", JNum <$> AiraloPackageListParams.page params) ])).
Proof.
unfold packages_query_of.
match goal with |- context [?q !! "limit"] => set (query := q) end.
assert (∀ k v, query !! k = Some v →
               k ∈ [ "filter[type]"; "filter[country]"; "limit"; "page" ]) as Hdom.
{ intros k v Hlookup. apply query_lookup_Some in Hlookup.
  unfold get in Hlookup. cbn [Request.params] in Hlookup.
  rewrite !elem_of_cons, elem_of_nil in Hlookup.
  rewrite !elem_of_cons.
  destruct_or?; simplify_eq; tauto. }
subst query.
destruct params as [type country limit page].
cbn [AiraloPackageListParams.type AiraloPackageListParams.country
     AiraloPackageListParams.limit AiraloPackageListParams.page] in *.
destruct type as [[] |], country, limit, page;
  (repeat split; [vm_compute; reflexivity .. | exact Hdom]).
Qed.

(** X13: [getPackages] requests [GET /v2/packages] with a query in which
  [filter[type]], [filter[country]], [limit] and [page] carry the caller's
  [type], [country], [limit] and [page], and nothing else. *)
Theorem getPackages_request params :
∃ out request,
  getPackages server (S fuel) params st = (out, after [Sent request] st) ∧
  Request.method request = GET ∧
  Request.url request = "/v2/packages" ∧
  Request.headers request = bearer token ∧
  packages_query_of params (Request.query request).
Proof.
eexists _, _. split; [run_endpoint getPackages; reflexivity |].
repeat (split; [reflexivity |]). apply getPackages_query.
Qed.

(** X14: [getOrderStatuses] may be called without [params]: the request is
  then [GET /v2/orders/statuses] with no query at all; with [params] the
  query carries [limit] and [page] when they are given. *)
Theorem getOrderStatuses_request params :
∃ out request,
  getOrderStatuses server (S fuel) params st = (out, after [Sent request] st) ∧
  Request.method request = GET ∧
  Request.url request = "/v2/orders/statuses" ∧
  (params = None → Request.query request = ∅) ∧
  (∀ p, params = Some p →
        Request.query request !! "limit" = JNum <$> Pagination.limit p ∧
        Request.query request !! "page" = JNum <$> Pagination.page p ∧
        ∀ k v, Request.query request !! k = Some v → k = "limit" ∨ k = "page").
Proof.
eexists _, _. split; [run_endpoint getOrderStatuses; reflexivity |].
repeat (split; [reflexivity |]). split.
- intros ->. reflexivity.
- intros [limit page] ->. cbn [from_option Pagination.limit Pagination.page].
  split; [| split].
  + destruct limit, page; vm_compute; reflexivity.
  + destruct limit, page; vm_compute; reflexivity.
  + intros k v Hlookup. apply query_lookup_Some in Hlookup.
    unfold get in Hlookup. cbn [Request.params] in Hlookup.
    rewrite !elem_of_cons, elem_of_nil in Hlookup.
    destruct_or?; simplify_eq; tauto.
Qed.

End EndpointRequests.

(** X15: the ICCID is spliced into the path as it is: [getSIM] with an ICCID
    that ends in [/instructions], [/usage], [/brand], [/packages] or
    [/topups] is the same call as the method for that sub-resource. *)
Theorem iccid_is_spliced_verbatim server fuel iccid st :
  getSIM server fuel (iccid +:+ "/instructions") st =
    getSIMInstructions server fuel iccid st ∧
  getSIM server fuel (iccid +:+ "/usage") st = getSIMUsage server fuel iccid st ∧
  getSIM server fuel (iccid +:+ "/brand") st = getSIMBrand server fuel iccid st ∧
  getSIM server fuel (iccid +:+ "/packages") st =
    getSIMPackages server fuel iccid st ∧
  getSIM server fuel (iccid +:+ "/topups") st = getSIMTopups server fuel iccid st.
Proof. repeat split. Qed.

(** ** Tokens and traces on the instance the constructor builds *)

Section Sessions.

Variable server : Server.
Variable fuel : nat.

(** X16: an empty access token counts as none: an instance that holds ['']
  starts every endpoint call with a login. When the server rejects that
  login, or fulfils it without [data], the call fails and nothing else is
  sent. Otherwise the instance stores the [access_token] of the reply
  unchecked and the one request that follows carries it: when that token
  is empty again the header reads ['Bearer '], and when the reply has none
  it reads ['Bearer undefined']. *)
Theorem empty_token_triggers_login op st :
accessToken (this st) = Some "" →
is_endpoint op = true →
∃ out st',
  call server (S fuel) op st = (out, st') ∧
  match token_endpoint server (trace st) (login_request (config (this st))) with
  | Rejected error =>
      out = Thrown (AiraloErr (handleAxiosError error)) ∧
      st' = after [Sent (login_request (config (this st)))] st
  | Fulfilled response =>
      match AiraloAuthResponse.data (AxiosResponse.data response) with
      | None =>
          out = Thrown no_data ∧
          st' = after [Sent (login_request (config (this st)))] st
      | Some data =>
          ∃ request,
            trace st' =
              (trace st ++ [ Sent (login_request (config (this st)));
                             Sent request ])%list ∧
            accessToken (this st') = AiraloAuthResponse.access_token data ∧
            Request.headers request !! "Authorization" =
              Some ("Bearer " +:+
                      match AiraloAuthResponse.access_token data with
                      | Some token => token
                      | None => "undefined"
                      end)
      end
  end.
Proof.
intros Hempty Hop.
destruct (call_endpoint server (S fuel) op Hop) as (request & wrap & -> & Hauth).
unfold payload, bind.
assert (truthy_str (accessToken (this st)) = false) as Hfalsy
  by (by rewrite Hempty).
rewrite (through_lazy server fuel request st Hfalsy).
destruct (token_endpoint server (trace st) (login_request (config (this st))))
  as [response | error]; [| by eexists _, _].
destruct (AiraloAuthResponse.data (AxiosResponse.data response)) as [data |];
  [| by eexists _, _].
cbv zeta.
assert (Request.headers
          (request (bearer (template (AiraloAuthResponse.access_token data))))
          !! "Authorization" =
        Some ("Bearer " +:+ template (AiraloAuthResponse.access_token data)))
  as Hheader.
{ rewrite Hauth. unfold bearer. apply lookup_singleton_eq. }
destruct (settle _); eexists _, _; (split; [reflexivity |]);
  eexists; (split; [unfold after; cbn [trace]; by rewrite <- app_assoc |]);
  (split; [reflexivity | exact Hheader]).
Qed.

Lemma requests_sent request events :
requests (Sent request :: events) = request :: requests events.
Proof. reflexivity. Qed.

(** What one public call adds to the trace. *)
Lemma call_events op st :
∃ events,
  trace (call server (S fuel) op st).2 = (trace st ++ events)%list ∧
  delays events = [] ∧
  (length (requests events) ≤ 2)%nat ∧
  Forall (λ request,
            request = login_request (config (this st)) ∨
            ∃ t, Request.headers request !! "Authorization" =
                   Some ("Bearer " +:+ t))
         (requests events).
Proof.
destruct (is_endpoint op) eqn:Hop.
- destruct (call_endpoint server (S fuel) op Hop) as (request & wrap & -> & Hauth).
  assert (∀ t, ∃ t', Request.headers (request (bearer t)) !! "Authorization" =
                      Some ("Bearer " +:+ t')) as Hheader.
  { intros t. exists t. rewrite Hauth. unfold bearer. apply lookup_singleton_eq. }
  unfold payload, bind.
  destruct (through_cases server fuel request st)
    as [(token & _ & _ & ->)
       | [(_ & error & _ & ->)
         | [(_ & response & data & _ & _ & Hrun)
           | (_ & response & _ & _ & ->)]]].
  + exists [Sent (request (bearer token))].
    split; [by destruct (settle _) |]. split; [done |]. split; [cbn; lia |].
    rewrite requests_sent. constructor; [right; apply Hheader | constructor].
  + exists [Sent (login_request (config (this st)))].
    split; [done |]. split; [done |]. split; [cbn; lia |].
    rewrite requests_sent. constructor; [by left | constructor].
  + cbv zeta in Hrun. rewrite Hrun.
    eexists [Sent (login_request (config (this st))); Sent (request (bearer _))].
    split; [destruct (settle _); unfold ret; cbn [snd after trace]; by rewrite <- app_assoc |].
    split; [done |]. split; [cbn; lia |].
    rewrite !requests_sent.
    constructor; [by left |]. constructor; [right; apply Hheader | constructor].
  + exists [Sent (login_request (config (this st)))].
    split; [done |]. split; [done |]. split; [cbn; lia |].
    rewrite requests_sent. constructor; [by left | constructor].
- destruct op; try discriminate Hop.
  unfold call, payload, bind. rewrite authenticate_run.
  exists [Sent (login_request (config (this st)))].
  split; [by destruct (token_endpoint _ _ _) as [response |];
            [destruct (AiraloAuthResponse.data (AxiosResponse.data response)) |] |].
  split; [done |]. split; [cbn; lia |].
  rewrite requests_sent. constructor; [by left | constructor].
Qed.

Lemma requests_app events events' :
requests (events ++ events') = (requests events ++ requests events')%list.
Proof. apply omap_app. Qed.

Lemma delays_app events events' :
delays (events ++ events') = (delays events ++ delays events')%list.
Proof. apply omap_app. Qed.

(** Any number of public calls in a row. *)
Lemma call_all_events ops :
∀ st,
  ∃ events,
    trace (call_all server (S fuel) ops st) = (trace st ++ events)%list ∧
    delays events = [] ∧
    (length (requests events) ≤ 2 * length ops)%nat ∧
    Forall (λ request,
              request = login_request (config (this st)) ∨
              ∃ t, Request.headers request !! "Authorization" =
                     Some ("Bearer " +:+ t))
           (requests events).
Proof.
induction ops as [| op ops IH]; intros st.
- exists []. cbn. rewrite app_nil_r. by repeat split.
- destruct (call_events op st) as (events & Htrace & Hdelays & Hlen & Hauth).
  destruct (IH (call server (S fuel) op st).2)
    as (events' & Htrace' & Hdelays' & Hlen' & Hauth').
  destruct (call_frame server fuel op st) as ((_ & _ & _ & Hconfig) & _).
  cbv zeta in Hconfig. rewrite <- Hconfig in Hauth'.
  exists (events ++ events')%list.
  unfold call_all in *. cbn [foldl].
  split; [by rewrite Htrace', Htrace, app_assoc |].
  rewrite requests_app, delays_app, Hdelays, Hdelays', length_app.
  split; [done |]. split; [cbn [length]; lia |].
  by apply Forall_app.
Qed.

(** X17: on the instance the constructor builds no call ever waits, and a
  public call sends at most two requests (a login and its own), whatever
  the server answers: over any sequence of calls the trace has no delay and
  at most twice as many requests as calls. *)
Theorem constructed_instance_never_waits ops st :
∃ events,
  trace (call_all server (S fuel) ops st) = (trace st ++ events)%list ∧
  delays events = [] ∧
  (length (requests events) ≤ 2 * length ops)%nat.
Proof.
destruct (call_all_events ops st) as (events & Htrace & Hdelays & Hlen & _).
by exists events.
Qed.

(** X18: over any sequence of public calls, every request that is sent is
  either the login or carries an [Authorization] header that starts with
  ['Bearer ']: no endpoint is ever called without one. *)
Theorem every_request_is_authorized ops st :
∃ events,
  trace (call_all server (S fuel) ops st) = (trace st ++ events)%list ∧
  Forall (λ request,
            request = login_request (config (this st)) ∨
            ∃ t, Request.headers request !! "Authorization" =
                   Some ("Bearer " +:+ t))
         (requests events).
Proof.
destruct (call_all_events ops st) as (events & Htrace & _ & _ & Hauth).
by exists events.
Qed.

(** X19: [authenticate] does not look at the token that is held: called
  twice, it logs in twice, and the instance holds the token of the second
  login. *)
Theorem authenticate_twice st first second data data' :
token_endpoint server (trace st) (login_request (config (this st))) =
  Fulfilled first →
AiraloAuthResponse.data (AxiosResponse.data first) = Some data →
token_endpoint server
  (trace st ++ [Sent (login_request (config (this st)))])
  (login_request (config (this st))) = Fulfilled second →
AiraloAuthResponse.data (AxiosResponse.data second) = Some data' →
(authenticate server (S fuel) ;; authenticate server (S fuel)) st =
  (Returned (),
   {| this := with_accessToken (AiraloAuthResponse.access_token data') (this st);
      trace := trace st ++ [ Sent (login_request (config (this st)));
                             Sent (login_request (config (this st))) ] |}).
Proof.
intros Hfirst Hdata Hsecond Hdata'. unfold bind.
rewrite authenticate_run, Hfirst, Hdata, authenticate_run.
cbn [this trace config with_accessToken]. rewrite Hsecond, Hdata'.
by rewrite <- app_assoc.
Qed.

(** Every endpoint method is [through] for some call, and resolves to the
  payload unless it is a [Promise<void>] method. *)
Lemma call_endpoint_payload op :
is_endpoint op = true →
∃ request,
  ∀ st,
    call server (S fuel) op st =
    payload (if is_void op then λ _, None else Some)
      (through server (S fuel) request) st.
Proof.
destruct op; intros Hop; try discriminate Hop;
  (eexists (λ headers, _); intros st; unfold call, payload,
     getOrders, getOrder, createOrder, createAsyncOrder, createTopupOrder,
     getOrderStatuses, getOrderStatus, getSIMs, getSIM, getSIMInstructions,
     getSIMUsage, getSIMBrand, updateSIMBrand, getSIMPackages, getSIMTopups,
     getPackages, getCompatibleDevices, optInNotifications,
     optOutNotifications, simulateWebhook, getBalance, redeemESIMVoucher,
     redeemAirmoneyVoucher, through, is_void;
   rewrite ?bind_assoc;
   first [ reflexivity
         | apply bind_ext; intros; rewrite ?bind_assoc;
           first [ reflexivity | apply bind_ext; intros; reflexivity ] ]).
Qed.

(** X20: on an instance that holds a token, an endpoint method sends one
  request and resolves to the payload of the response as it is; the
  [Promise<void>] methods resolve to nothing. The instance is unchanged. *)
Theorem endpoint_resolves_to_the_payload op st token :
is_endpoint op = true →
accessToken (this st) = Some token →
token ≠ "" →
∃ request,
  ∀ response,
    api server (trace st) request = Fulfilled response →
    call server (S fuel) op st =
      (Returned (if is_void op then None
                 else Some (AxiosResponse.data response)),
       after [Sent request] st).
Proof.
intros Hop Htoken Hne.
destruct (call_endpoint_payload op Hop) as (request & Hcall).
exists (request (bearer token)). intros response Hreply.
rewrite Hcall. unfold payload, bind.
rewrite (through_holding server fuel request st token Htoken Hne), Hreply.
by destruct (is_void op).
Qed.

End Sessions.

(** ** Instances of the properties above *)

(** An order without [type], as in the test 'should create order'. *)
Lemma createOrder_form_witness :
  ∃ out formData,
    createOrder healthy 1 untyped_order (holding "T") =
      (out,
       after [Sent (post "/v2/orders" (FormData formData) (multipart "T"))]
         (holding "T")) ∧
    formData =
      [ ("quantity", "1"); ("package_id", "1"); ("type", "undefined");
        ("description", "Test order") ] ∧
    NoDup (form_keys formData).
Proof.
  destruct (createOrder_form healthy 0 (holding "T") "T" eq_refl
              ltac:(discriminate) untyped_order)
    as (out & formData & optional & Hrun & Hform & Hoptional & Hkeys).
  exists out, formData. split; [exact Hrun |]. split; [| exact Hkeys].
  unfold createOrder, bind in Hrun.
  rewrite (getHeaders_holding healthy _ (holding "T") "T" eq_refl) in Hrun
    by discriminate.
  cbv zeta in Hrun. rewrite handleRequest_intercepted in Hrun.
  by simplify_eq/=.
Defined.

Lemma createAsyncOrder_extends_createOrder_witness :
  ∃ out out' formData,
    createOrder healthy 1 sample_order (holding "T") =
      (out,
       after [Sent (post "/v2/orders" (FormData formData) (multipart "T"))]
         (holding "T")) ∧
    createAsyncOrder healthy 1 sample_async_order (holding "T") =
      (out',
       after [Sent (post "/v2/orders-async"
                      (FormData
                         (formData
                            ++ [("callback_url", "https://your-callback-url.com")]))
                      (multipart "T"))]
         (holding "T")).
Proof.
  exact (createAsyncOrder_extends_createOrder healthy 0 (holding "T") "T" eq_refl
           ltac:(discriminate) sample_async_order).
Defined.


Lemma updateSIMBrand_form_witness :
  ∃ out,
    updateSIMBrand healthy 1 "8988228888888888888" None (holding "T") =
      (out,
       after [Sent (put "/v2/sims/8988228888888888888/brand" (FormData [])
                      (multipart "T"))]
         (holding "T")).
Proof.
  destruct (updateSIMBrand_form healthy 0 (holding "T") "T" eq_refl
              ltac:(discriminate) "8988228888888888888" None)
    as (out & formData & Hrun & Habsent & _).
  exists out. rewrite Hrun, (Habsent (or_introl eq_refl)). reflexivity.
Defined.

Lemma getOrder_request_witness :
  ∃ out request,
    getOrder healthy 1 (SafeInteger.mk 123 eq_refl) None (holding "T") =
      (out, after [Sent request] (holding "T")) ∧
    Request.url request = "/v2/orders/123" ∧
    Request.query request = ∅.
Proof.
  destruct (getOrder_request healthy 0 (holding "T") "T" eq_refl
              ltac:(discriminate) (SafeInteger.mk 123 eq_refl) None)
    as (out & request & Hrun & _ & Hurl & _ & Hquery & _).
  by exists out, request.
Defined.

Lemma getPackages_request_witness :
  ∃ out request,
    getPackages healthy 1 sample_packages (holding "T") =
      (out, after [Sent request] (holding "T")) ∧
    Request.query request !! "filter[type]" = Some (JStr "local") ∧
    Request.query request !! "filter[country]" = Some (JStr "TR").
Proof.
  destruct (getPackages_request healthy 0 (holding "T") "T" eq_refl
              ltac:(discriminate) sample_packages)
    as (out & request & Hrun & _ & _ & _ & Htype & Hcountry & _).
  by exists out, request.
Defined.

Lemma getOrderStatuses_request_witness :
  ∃ out request,
    getOrderStatuses healthy 1 None (holding "T") =
      (out, after [Sent request] (holding "T")) ∧
    Request.query request = ∅.
Proof.
  destruct (getOrderStatuses_request healthy 0 (holding "T") "T" eq_refl
              ltac:(discriminate) None)
    as (out & request & Hrun & _ & _ & Hnone & _).
  exists out, request. split; [exact Hrun |]. by apply Hnone.
Defined.

(** A login that is answered with an empty token again. *)
Lemma empty_token_triggers_login_witness :
  ∃ out st' request,
    call (flaky "" 500 0 JNull) 1 GetBalance (holding "") = (out, st') ∧
    trace st' = [Sent (login_request test_config); Sent request] ∧
    accessToken (this st') = Some "" ∧
    Request.headers request !! "Authorization" = Some "Bearer ".
Proof.
  destruct (empty_token_triggers_login (flaky "" 500 0 JNull) 0 GetBalance
              (holding "") eq_refl eq_refl)
    as (out & st' & Hrun & request & Htrace & Htoken & Hheader).
  by exists out, st', request.
Defined.

Lemma authenticate_twice_witness :
  accessToken
    (this ((authenticate healthy 1 ;; authenticate healthy 1) fresh).2) =
    Some "T" ∧
  length (requests (trace ((authenticate healthy 1 ;; authenticate healthy 1)
                             fresh).2)) = 2%nat.
Proof.
  rewrite (authenticate_twice healthy 0 fresh
             (AxiosResponse.mk
                {| AiraloAuthResponse.data :=
                     Some {| AiraloAuthResponse.access_token := Some "T";
                             AiraloAuthResponse.token_type := Some "Bearer";
                             AiraloAuthResponse.expires_in := Some 3600 |} |})
             (AxiosResponse.mk
                {| AiraloAuthResponse.data :=
                     Some {| AiraloAuthResponse.access_token := Some "T";
                             AiraloAuthResponse.token_type := Some "Bearer";
                             AiraloAuthResponse.expires_in := Some 3600 |} |})
             _ _ eq_refl eq_refl eq_refl eq_refl).
  split; reflexivity.
Defined.

Lemma endpoint_resolves_to_the_payload_witness :
  ∃ request,
    call healthy 1 GetBalance (holding "T") =
      (Returned (Some JNull), after [Sent request] (holding "T")).
Proof.
  destruct (endpoint_resolves_to_the_payload healthy 0 GetBalance (holding "T")
              "T" eq_refl eq_refl ltac:(discriminate)) as (request & Hrun).
  exists request. exact (Hrun (AxiosResponse.mk JNull) eq_refl).
Defined.
